(** * ReadsAlignmentUtils: the SamTools wrapper (core/sam_tools.py)

    A shallow embedding of the class [SamTools] and the properties of its
    path resolution, flagstat parsing, validation classification and of
    the four status-returning operations.

    Text is modelled over the code points U+0000..U+00FF, one [ascii] per
    code point.  Python's [int] is [Z], Python's [float] is the IEEE 754
    binary64 format of [SpecFloat] (precision 53, emax 1024).

    The collaborators of the module are parameters of a call: the file
    system, [script_utils.whereis] and the subprocesses are fields of a
    [world]; [script_utils.log] and the logger are sinks whose calls are
    recorded, in program order, in the trace of the computation.  The
    sinks do not raise, the exceptions of the world derive from
    [Exception], and the interpreter's optional cap on the length of a
    digit string given to [int] is off. *)

From Stdlib Require Import String Ascii List ZArith Lia Bool Arith.
From Stdlib Require Import QArith Qabs.
From Stdlib Require Import Floats.SpecFloat.
Import ListNotations.

Local Close Scope Q_scope.
Local Open Scope string_scope.

(* ================================================================== *)
(** ** Python primitives used by the module *)

Module Py.

(** Character classes of [re] on [str] patterns, restricted to the code
    points below 256: [\d] is the decimal digits, [\w] is [str.isalnum]
    plus the underscore. *)
Definition is_digit (c : ascii) : bool :=
  let n := nat_of_ascii c in ((48 <=? n) && (n <=? 57))%nat.

Definition is_word (c : ascii) : bool :=
  let n := nat_of_ascii c in
  (((48 <=? n) && (n <=? 57)) || ((65 <=? n) && (n <=? 90)) ||
   ((97 <=? n) && (n <=? 122)) || (n =? 95) ||
   (n =? 170) || (n =? 178) || (n =? 179) || (n =? 181) || (n =? 185) ||
   (n =? 186) || ((188 <=? n) && (n <=? 190)) ||
   ((192 <=? n) && (n <=? 214)) || ((216 <=? n) && (n <=? 246)) ||
   (248 <=? n))%nat.

(** Line boundaries of [str.splitlines]. *)
Definition is_linebreak (c : ascii) : bool :=
  let n := nat_of_ascii c in
  (((10 <=? n) && (n <=? 13)) || ((28 <=? n) && (n <=? 30)) || (n =? 133))%nat.

Definition is_empty (s : string) : bool :=
  match s with EmptyString => true | String _ _ => false end.

(** [s.startswith(p)], and the remainder of [s] after [p]. *)
Fixpoint strip_prefix (p s : string) : option string :=
  match p, s with
  | EmptyString, _ => Some s
  | String a p', String b s' =>
      if Ascii.eqb a b then strip_prefix p' s' else None
  | String _ _, EmptyString => None
  end.

Definition startswith (s p : string) : bool :=
  match strip_prefix p s with Some _ => true | None => false end.

(** [s[-n:]] and [s[:-n]] for a positive literal [n]. *)
Definition slice_last (n : nat) (s : string) : string :=
  substring (String.length s - n) n s.

Definition slice_drop_last (n : nat) (s : string) : string :=
  substring 0 (String.length s - n) s.

Definition endswith (s p : string) : bool :=
  (String.length p <=? String.length s)%nat &&
  String.eqb (slice_last (String.length p) s) p.

(** [needle in hay] on strings. *)
Fixpoint contains (needle hay : string) : bool :=
  match hay with
  | EmptyString => is_empty needle
  | String _ rest => startswith hay needle || contains needle rest
  end.

(** [item in lst] on a list of strings. *)
Definition mem (x : string) (l : list string) : bool :=
  existsb (String.eqb x) l.

(** The longest prefix of characters of a class, and what follows it. *)
Fixpoint span (p : ascii -> bool) (s : string) : string * string :=
  match s with
  | EmptyString => (EmptyString, EmptyString)
  | String c rest =>
      if p c then let (tok, tl) := span p rest in (String c tok, tl)
      else (EmptyString, s)
  end.

(** [str.splitlines()]: [cur] is the line being read, [after_cr] tells
    that the previous character was a carriage return, so that a
    following line feed belongs to the same boundary. *)
Fixpoint splitlines_from (cur : string) (after_cr : bool) (s : string)
  : list string :=
  match s with
  | EmptyString => if is_empty cur then [] else [cur]
  | String c rest =>
      if after_cr && Ascii.eqb c "010" then splitlines_from "" false rest
      else if is_linebreak c
      then cur :: splitlines_from "" (Ascii.eqb c "013") rest
      else splitlines_from (cur ++ String c "") false rest
  end.

Definition splitlines (s : string) : list string :=
  splitlines_from "" false s.

(** [posixpath.join(a, b)]. *)
Definition path_join (a b : string) : string :=
  if startswith b "/" then b
  else if is_empty a || endswith a "/" then a ++ b
  else a ++ "/" ++ b.

(** [int(s)] on a string of decimal digits. *)
Definition digit_value (c : ascii) : Z := Z.of_nat (nat_of_ascii c) - 48.

Fixpoint int_from (acc : Z) (s : string) : Z :=
  match s with
  | EmptyString => acc
  | String c rest => int_from (10 * acc + digit_value c) rest
  end.

Definition int (s : string) : Z := int_from 0 s.

End Py.

(* ================================================================== *)
(** ** Python floats: IEEE 754 binary64 *)

Module PyFloat.

Definition prec : Z := 53.
Definition emax : Z := 1024.

(** [float(n)] on an int: the nearest double, ties to even;
    [None] stands for OverflowError (int too large to convert). *)
Definition of_int (n : Z) : option spec_float :=
  match binary_normalize prec emax n 0 false with
  | S754_infinity _ => None
  | f => Some f
  end.

Definition is_zero (x : spec_float) : bool :=
  match x with S754_zero _ => true | _ => false end.

Definition div (x y : spec_float) : spec_float := SFdiv prec emax x y.
Definition mul (x y : spec_float) : spec_float := SFmul prec emax x y.

(** [x > y]. *)
Definition gt (x y : spec_float) : bool := SFltb y x.

(** The literal [100.0]. *)
Definition hundred : spec_float := binary_normalize prec emax 100 0 false.

(** The rational a finite double stands for. *)
Definition to_Q (x : spec_float) : option Q :=
  match x with
  | S754_zero _ => Some (0 # 1)%Q
  | S754_finite s m e =>
      Some (inject_Z (if s then Z.neg m else Z.pos m) * Qpower (2 # 1) e)%Q
  | _ => None
  end.

End PyFloat.

(* ================================================================== *)
(** ** The two regular expressions of the module *)

Module Re.
Import Py.

(** [re.compile(r'^(\d+) \+ (\d+)').match(line)]: the two groups, or
    [None] when the line does not start with the pattern.  A greedy
    [\d+] followed by a literal that is not a digit never gives a digit
    back, so the longest run of digits is the group. *)
Definition two_nums_match (line : string) : option (string * string) :=
  let (g1, r1) := span is_digit line in
  if is_empty g1 then None
  else match strip_prefix " + " r1 with
       | None => None
       | Some r2 =>
           let (g2, _) := span is_digit r2 in
           if is_empty g2 then None else Some (g1, g2)
       end.

(** [re.search('(?<=ERROR:)\w+', line)]: [group(0)] of the leftmost
    match, that is the longest run of word characters right after the
    first [ERROR:] that is followed by a word character. *)
Fixpoint search_error (line : string) : option string :=
  match line with
  | EmptyString => None
  | String _ rest =>
      match strip_prefix "ERROR:" line with
      | Some after =>
          let (tok, _) := span is_word after in
          if is_empty tok then search_error rest else Some tok
      | None => search_error rest
      end
  end.

End Re.

(* ================================================================== *)
(** ** Exceptions, the trace of calls to collaborators, and the world *)

Module Eff.

(** The exceptions the module raises or meets.  [RuntimeError msg] is
    [RuntimeError(None, msg)]; [AttributeError a] is the access of
    attribute [a] on [None]; [Raised cls text] is an exception of class
    [cls] raised by a collaborator (subprocess, bytes.decode), with
    [str(ex) = text]. *)
Inductive exn : Type :=
| Exception (msg : string)
| RuntimeError (msg : string)
| IndexError
| AttributeError (attr : string)
| OverflowError
| ZeroDivisionError
| Raised (cls text : string).

Inductive outcome (A : Type) : Type :=
| Return (a : A)
| Raise (e : exn).
Arguments Return {A} a.
Arguments Raise {A} e.

(** Severities of the [logging] module. *)
Inductive level : Type := DEBUG | INFO | WARNING | ERROR.

(** A logger object, as passed to the constructor. *)
Inductive logger : Type := Logger (name : string).

(** What a finished process wrote to its standard output: the bytes as
    [repr] prints them, and what [bytes.decode()] gives. *)
Record stdout : Type := {
  bytes_repr : string;
  decoded : outcome string
}.

(** A launched process. *)
Record process : Type := {
  command : string;
  communicate_result : outcome stdout;
  wait_result : outcome unit
}.

(** The environment of a call. *)
Record world : Type := {
  path_exists : string -> bool;          (* os.path.exists *)
  whereis : string -> option string;     (* script_utils.whereis *)
  environ_PATH : string;                 (* os.environ.get('PATH', '') *)
  spawn : string -> option string -> outcome process
                                         (* Popen(cmd, shell=True, cwd=..) *)
}.

(** Calls to collaborators, in program order. *)
Inductive event : Type :=
| EvLog (msg : string) (lvl : option level) (lg : option logger)
| EvLoggerCall (lg : logger) (lvl : level) (msg : string)
| EvWhereis (prog : string)
| EvPopen (cmd : string) (cwd : option string) (stdout_to : option string)
| EvCommunicate (cmd : string)
| EvWait (cmd : string).

(** A computation: the calls it made and how it ended. *)
Definition M (A : Type) : Type := (list event * outcome A)%type.

Definition ret {A} (a : A) : M A := ([], Return a).
Definition raise {A} (e : exn) : M A := ([], Raise e).
Definition emit (ev : event) : M unit := ([ev], Return tt).
Definition lift {A} (ev : list event) (o : outcome A) : M A := (ev, o).

Definition bind {A B} (m : M A) (k : A -> M B) : M B :=
  match m with
  | (t, Return a) => let (t', o) := k a in ((t ++ t')%list, o)
  | (t, Raise e) => (t, Raise e)
  end.

(** [try: m  except Exception as ex: h ex]. *)
Definition try_except {A} (m : M A) (h : exn -> M A) : M A :=
  match m with
  | (t, Return a) => (t, Return a)
  | (t, Raise e) => let (t', o) := h e in ((t ++ t')%list, o)
  end.

Definition trace {A} (m : M A) : list event := fst m.
Definition result {A} (m : M A) : outcome A := snd m.

(** [str(ex)]. *)
Definition str (e : exn) : string :=
  match e with
  | Exception msg => msg
  | RuntimeError msg => "(None, '" ++ msg ++ "')"
  | IndexError => "list index out of range"
  | AttributeError a => "'NoneType' object has no attribute '" ++ a ++ "'"
  | OverflowError => "int too large to convert to float"
  | ZeroDivisionError => "float division by zero"
  | Raised _ text => text
  end.

(** An event that launches or drives an external process. *)
Definition is_process_event (ev : event) : bool :=
  match ev with
  | EvPopen _ _ _ | EvCommunicate _ | EvWait _ => true
  | _ => false
  end.

Definition is_whereis_event (ev : event) : bool :=
  match ev with EvWhereis _ => true | _ => false end.

End Eff.

Declare Scope eff_scope.
Delimit Scope eff_scope with eff.
Notation "x <- m ;; k" := (Eff.bind m (fun x => k))
  (at level 61, m at next level, right associativity) : eff_scope.
Notation "m ;;; k" := (Eff.bind m (fun _ => k))
  (at level 61, right associativity) : eff_scope.

(* ================================================================== *)
(** ** class SamTools *)

Module SamTools.
Import Py Re Eff.
Local Open Scope eff_scope.

(** [self]: the constructor stores [config] and [logger]
    ([logger] defaults to [None]). *)
Record t : Type := {
  config : string;
  logger : option Eff.logger
}.

(** A number as Python tells them apart: [alignment_rate] is the int
    [0] on one branch and a float on the other. *)
Inductive number : Type :=
| PyInt (n : Z)
| PyFloat (x : spec_float).

(** The dict returned by [_extractAlignmentStatsInfo]. *)
Record stats_data : Type := {
  alignment_rate : number;
  multiple_alignments : Z;
  properly_paired : Z;
  singletons : Z;
  total_reads : Z;
  unmapped_reads : Z;
  mapped_reads : Z
}.

(** The default of the [ignore] parameter of the public methods. *)
Definition default_ignore : list string :=
  ["MATE_NOT_FOUND"; "MISSING_READ_GROUP"; "INVALID_MAPPING_QUALITY"].

(** *** Collaborators *)

(** [log(msg, level, logger)] of script_utils: a sink. *)
Definition log (msg : string) (lvl : option level) (lg : option Eff.logger)
  : M unit :=
  emit (EvLog msg lvl lg).

(** [self.logger.error(msg)]. *)
Definition logger_error (self : t) (msg : string) : M unit :=
  match logger self with
  | None => raise (AttributeError "error")
  | Some lg => emit (EvLoggerCall lg ERROR msg)
  end.

(** [Popen(cmd, shell=True, ..., cwd=cwd)]. *)
Definition Popen (w : world) (cmd : string) (cwd stdout_to : option string)
  : M process :=
  lift [EvPopen cmd cwd stdout_to] (spawn w cmd cwd).

Definition communicate (p : process) : M stdout :=
  lift [EvCommunicate (command p)] (communicate_result p).

Definition wait (p : process) : M unit :=
  lift [EvWait (command p)] (wait_result p).

Definition decode (out : stdout) : M string := lift [] (decoded out).

(** [lines[i]]. *)
Definition item (lines : list string) (i : nat) : M string :=
  match nth_error lines i with
  | Some l => ret l
  | None => raise IndexError
  end.

(** [m.group(1)] and [m.group(2)] on the result of [match]. *)
Definition group1 (m : option (string * string)) : M string :=
  match m with
  | Some (g1, _) => ret g1
  | None => raise (AttributeError "group")
  end.

Definition group2 (m : option (string * string)) : M string :=
  match m with
  | Some (_, g2) => ret g2
  | None => raise (AttributeError "group")
  end.

(** [float(n)]. *)
Definition float (n : Z) : M spec_float :=
  match PyFloat.of_int n with
  | Some x => ret x
  | None => raise OverflowError
  end.

(** [x / y] on floats. *)
Definition truediv (x y : spec_float) : M spec_float :=
  if PyFloat.is_zero y then raise ZeroDivisionError
  else ret (PyFloat.div x y).

(** [str(x)] on a string or [None]. *)
Definition str_option (x : option string) : string :=
  match x with Some s => s | None => "None" end.

(** *** _prepare_paths *)

Definition _prepare_paths (ifile : string) (ipath ofile opath : option string)
    (iext oext : string) : M (string * string * string) :=
  match ipath with
  | None =>
      raise (Exception
        "Excepted an absolute path to input file to sam tools. Cannot be none.")
  | Some ipath =>
      if match opath with
         | Some o => negb (startswith o "/")
         | None => false
         end
      then raise (Exception
             ("Output path must be an absolute path. Provided: "
              ++ str_option opath))
      else
        let opath := match opath with None => ipath | Some o => o end in
        let ofile :=
          match ofile with
          | None =>
              if String.eqb (slice_last 4 ifile) iext
              then slice_drop_last 4 ifile ++ oext
              else ifile ++ oext
          | Some f => f
          end in
        let ifile := path_join ipath ifile in
        let ofile := path_join opath ofile in
        ret (ifile, ofile, opath)
  end.

(** *** _check_prog *)

Definition _check_prog (w : world) : M unit :=
  emit (EvWhereis "samtools") ;;;
  match whereis w "samtools" with
  | Some p =>
      if is_empty p
      then raise (RuntimeError
             ("samtools command not found in your PATH environmental variable. "
              ++ environ_PATH w))
      else ret tt
  | None =>
      raise (RuntimeError
        ("samtools command not found in your PATH environmental variable. "
         ++ environ_PATH w))
  end.

(** *** _extractAlignmentStatsInfo *)

Definition zero_total_message : string :=
  "alignment stats don't look right. total_qcpr + total_qcfr = 0. " ++
  "setting aligment_rate = 0.".

(** The [if total_read == 0: .. else: ..] that sets [alignment_rate]. *)
Definition alignment_rate_block (self : t) (total_read mapped_r : Z)
  : M number :=
  if (total_read =? 0)%Z
  then logger_error self zero_total_message ;;; ret (PyInt 0)
  else
    fm <- float mapped_r ;;
    ft <- float total_read ;;
    q <- truediv fm ft ;;
    let rate := PyFloat.mul q PyFloat.hundred in
    if PyFloat.gt rate PyFloat.hundred
    then ret (PyFloat PyFloat.hundred)
    else ret (PyFloat rate).

Definition _extractAlignmentStatsInfo (self : t) (stats : string)
  : M stats_data :=
  let lines := splitlines stats in
  l0 <- item lines 0 ;;
  let m := two_nums_match l0 in
  g <- group1 m ;;
  let total_qcpr := int g in
  g <- group2 m ;;
  let total_qcfr := int g in
  let total_read := (total_qcpr + total_qcfr)%Z in
  l4 <- item lines 4 ;;
  let m := two_nums_match l4 in
  g <- group1 m ;;
  let mapped_r := int g in
  let unmapped_r := (total_read - mapped_r)%Z in
  alignment_rate <- alignment_rate_block self total_read mapped_r ;;
  l10 <- item lines 10 ;;
  let m := two_nums_match l10 in
  g <- group1 m ;;
  let singletons := int g in
  l8 <- item lines 8 ;;
  let m := two_nums_match l8 in
  g <- group1 m ;;
  let properly_paired := int g in
  let multiple_alignments := 0%Z in
  ret {| alignment_rate := alignment_rate;
         multiple_alignments := multiple_alignments;
         properly_paired := properly_paired;
         singletons := singletons;
         total_reads := total_read;
         unmapped_reads := unmapped_r;
         mapped_reads := mapped_r |}.

(** *** _is_valid *)

(** The loop over the lines: the first match of each line is looked up
    in [ignore]; the first line that fails ends the loop. *)
Fixpoint scan_lines (ignore : list string) (lines : list string) : bool :=
  match lines with
  | [] => true
  | line :: rest =>
      match search_error line with
      | Some tok =>
          if negb (mem tok ignore) then false else scan_lines ignore rest
      | None => scan_lines ignore rest
      end
  end.

Definition _is_valid (result : option string) (ignore : option (list string))
  : bool :=
  match result with
  | None => true
  | Some result =>
      let ignore :=
        match ignore with None => ["xxx"] | Some l => l end in
      if contains "Exception" result then false
      else scan_lines ignore (splitlines result)
  end.

(** The guard that opens [validate] and [get_stats]:
    [if not ipath.startswith('/'): raise Exception(..)]. *)
Definition absolute_input_path (ipath : option string) : M string :=
  match ipath with
  | None => raise (AttributeError "startswith")
  | Some p =>
      if negb (startswith p "/")
      then raise (Exception
             ("Input path must be an absolute path. Provided: " ++ p))
      else ret p
  end.

(** *** validate *)

Definition validate (self : t) (w : world) (ifile : string)
    (ipath : option string) (ignore : option (list string)) : M Z :=
  ipath <- absolute_input_path ipath ;;
    let ifile := path_join ipath ifile in
    if negb (path_exists w ifile)
    then raise (RuntimeError ("Input file does not exist: " ++ ifile))
    else
      try_except
        (validation <-
           Popen w ("java -jar /opt/picard/build/libs/picard.jar " ++
                    "ValidateSamFile I=" ++ ifile ++ " MODE=SUMMARY")
                 None None ;;
         result <- communicate validation ;;
         text <- decode result ;;
         if _is_valid (Some text) ignore
         then log (ifile ++ " passed validation") (Some INFO) (logger self) ;;;
              ret 0%Z
         else log (ifile ++ " failed validation with errors: "
                   ++ bytes_repr result) (Some ERROR) (logger self) ;;;
              ret 1%Z)
        (fun ex =>
           log (ifile ++ " failed validation. " ++ str ex)
               (Some ERROR) (logger self) ;;;
           ret 1%Z).

(** [validate and self.validate(ifile, ipath, ignore=ignore) == 1]. *)
Definition validation_fails (self : t) (w : world) (flag : bool)
    (ifile : string) (ipath : option string) (ignore : option (list string))
  : M bool :=
  if flag
  then r <- validate self w ifile ipath ignore ;; ret (r =? 1)%Z
  else ret false.

(** *** convert_sam_to_sorted_bam *)

Definition convert_sam_to_sorted_bam (self : t) (w : world) (ifile : string)
    (ipath ofile opath : option string) (validate_flag : bool)
    (ignore : option (list string)) : M Z :=
  paths <- _prepare_paths ifile ipath ofile opath ".sam" ".bam" ;;
  let '(ifile, ofile, opath) := paths in
  if negb (path_exists w ifile)
  then raise (RuntimeError ("Input sam file does not exist: " ++ ifile))
  else
    stop <- validation_fails self w validate_flag ifile ipath ignore ;;
    if (stop : bool) then ret 1%Z
    else
      _check_prog w ;;;
      try_except
        (log ("Converting sam to sorted bam for file: " ++ ifile ++
              " with cwd: " ++ opath) None None ;;;
         sort <- Popen w ("samtools sort -l 9 -O BAM > " ++ ofile)
                   (Some opath) None ;;
         view <- Popen w ("samtools view -bS " ++ ifile)
                   (Some opath) (Some (command sort)) ;;
         communicate sort ;;;
         wait view)
        (fun ex =>
           log ("failed to convert " ++ ifile ++ " to " ++ ofile ++ ". "
                ++ str ex) (Some ERROR) None) ;;;
      ret 0%Z.

(** *** convert_bam_to_sam *)

Definition convert_bam_to_sam (self : t) (w : world) (ifile : string)
    (ipath ofile opath : option string) (validate_flag : bool)
    (ignore : option (list string)) : M Z :=
  paths <- _prepare_paths ifile ipath ofile opath ".sam" ".bam" ;;
  let '(ifile, ofile, opath) := paths in
  if negb (path_exists w ifile)
  then raise (RuntimeError ("Input bam file does not exist: " ++ ifile))
  else
    stop <- validation_fails self w validate_flag ifile ipath ignore ;;
    if (stop : bool) then ret 1%Z
    else
      _check_prog w ;;;
      try_except
        (log ("Converting bam to sam for file: " ++ ifile ++
              " with output file: " ++ ofile ++ " and cwd: " ++ opath)
             None None ;;;
         convert <- Popen w ("samtools view -h " ++ ifile ++ " > " ++ ofile)
                      (Some opath) None ;;
         communicate convert ;;;
         ret tt)
        (fun ex =>
           log ("failed to convert " ++ ifile ++ " to " ++ ofile ++ ". "
                ++ str ex) (Some ERROR) None) ;;;
      ret 0%Z.

(** *** create_bai_from_bam *)

Definition create_bai_from_bam (self : t) (w : world) (ifile : string)
    (ipath ofile opath : option string) (validate_flag : bool)
    (ignore : option (list string)) : M Z :=
  paths <- _prepare_paths ifile ipath ofile opath ".bam" ".bai" ;;
  let '(ifile, ofile, opath) := paths in
  if negb (path_exists w ifile)
  then raise (RuntimeError ("Input bam file does not exist: " ++ ifile))
  else
    stop <- validation_fails self w validate_flag ifile ipath ignore ;;
    if (stop : bool) then ret 1%Z
    else
      _check_prog w ;;;
      returned <-
        try_except
          (log ("Creating bai from bam for file: " ++ ifile ++
                " with output file: " ++ ofile ++ " and cwd: " ++ opath)
               None None ;;;
           create <- Popen w ("samtools index " ++ ifile ++ " " ++ ofile)
                       (Some opath) None ;;
           communicate create ;;;
           ret None)
          (fun ex =>
             log ("failed to convert " ++ ifile ++ " to " ++ ofile ++ ". "
                  ++ str ex) (Some ERROR) None ;;;
             ret (Some 1%Z)) ;;
      match returned with
      | Some status => ret status
      | None => ret 0%Z
      end.

(** *** get_stats *)

Definition get_stats (self : t) (w : world) (ifile : string)
    (ipath : option string) : M stats_data :=
  ipath <- absolute_input_path ipath ;;
    let ifile := path_join ipath ifile in
    if negb (path_exists w ifile)
    then raise (RuntimeError ("Input bam file does not exist: " ++ ifile))
    else
      _check_prog w ;;;
      stats <- Popen w ("samtools flagstat " ++ ifile) None None ;;
      out <- communicate stats ;;
      text <- decode out ;;
      _extractAlignmentStatsInfo self text.

End SamTools.

(* ================================================================== *)
(** ** Vocabulary of the statements *)

Module Spec.
Import Py Re Eff SamTools.

(** The explicit output directory, when given, is absolute. *)
Definition output_dir_ok (opath : option string) : bool :=
  match opath with
  | Some o => startswith o "/"
  | None => true
  end.

(** The two groups at the start of line [i], when the line is there
    and starts with the two numbers. *)
Definition numbers_at (lines : list string) (i : nat)
  : option (string * string) :=
  match nth_error lines i with
  | Some l => two_nums_match l
  | None => None
  end.

(** Line [i] of the report is present and starts with the two numbers. *)
Definition line_ok (lines : list string) (i : nat) : bool :=
  match numbers_at lines i with Some _ => true | None => false end.

(** The block that sets the rate returns: a logger is there when the
    total is zero, both counts fit a double otherwise. *)
Definition rate_returns (self : t) (total_read mapped_r : Z) : bool :=
  if (total_read =? 0)%Z
  then match logger self with Some _ => true | None => false end
  else match PyFloat.of_int mapped_r, PyFloat.of_int total_read with
       | Some _, Some _ => true
       | _, _ => false
       end.

(** Launching [cmd] or waiting for its output raises. *)
Definition invocation_raises (w : world) (cmd : string) (cwd : option string)
  : bool :=
  match spawn w cmd cwd with
  | Raise _ => true
  | Return p =>
      match communicate_result p with
      | Raise _ => true
      | Return _ => false
      end
  end.

(** The operation gets as far as its [try] block: the input exists,
    the optional validation does not stop it, samtools is found. *)
Definition reaches_pipeline (self : t) (w : world) (flag : bool)
    (ifile : string) (ipath : option string) (ignore : option (list string))
  : Prop :=
  path_exists w ifile = true /\
  result (validation_fails self w flag ifile ipath ignore) = Return false /\
  result (_check_prog w) = Return tt.

(** [line] reads [pre ++ "ERROR:" ++ ..] and no [ERROR:] starts inside
    [pre]: the one after [pre] is the first of the line. *)
Definition first_error_after (pre line : string) : Prop :=
  forall i, (i < String.length pre)%nat -> substring i 6 line <> "ERROR:".

(** All characters of [s] are of the class [p]. *)
Fixpoint all_chars (p : ascii -> bool) (s : string) : bool :=
  match s with
  | EmptyString => true
  | String c rest => p c && all_chars p rest
  end.

(** [s] does not start with a character of the class [p]. *)
Definition stops (p : ascii -> bool) (s : string) : bool :=
  match s with
  | EmptyString => true
  | String c _ => negb (p c)
  end.

(** A run of word characters, and a text that does not go on with one. *)
Definition all_word (s : string) : bool := all_chars is_word s.
Definition ends_token (s : string) : bool := stops is_word s.

(** The command lines of the module. *)
Definition picard_command (ifile : string) : string :=
  "java -jar /opt/picard/build/libs/picard.jar " ++
  "ValidateSamFile I=" ++ ifile ++ " MODE=SUMMARY".

Definition index_command (ifile ofile : string) : string :=
  "samtools index " ++ ifile ++ " " ++ ofile.

End Spec.

(* ================================================================== *)
(** ** Scenarios: concrete environments and reports *)

Module Scenario.
Import Py Eff SamTools.

Definition nl : string := String "010" "".
Definition cr : string := String "013" "".

Definition no_logger : SamTools.t := {| config := ""; logger := None |}.
Definition with_logger : SamTools.t :=
  {| config := ""; logger := Some (Logger "sam_tools") |}.

(** A process that ends normally and prints nothing. *)
Definition quiet (cmd : string) : process :=
  {| command := cmd;
     communicate_result :=
       Return {| bytes_repr := "b''"; decoded := Return "" |};
     wait_result := Return tt |}.

(** Every file exists, samtools is installed, every process runs. *)
Definition all_good : world :=
  {| path_exists := fun _ => true;
     whereis := fun _ => Some "/usr/bin/samtools";
     environ_PATH := "/usr/bin";
     spawn := fun cmd _ => Return (quiet cmd) |}.

(** As [all_good], but no process can be launched. *)
Definition no_launch : world :=
  {| path_exists := fun _ => true;
     whereis := fun _ => Some "/usr/bin/samtools";
     environ_PATH := "/usr/bin";
     spawn := fun _ _ => Raise (Raised "OSError" "cannot fork") |}.

(** As [all_good], but no file exists. *)
Definition no_files : world :=
  {| path_exists := fun _ => false;
     whereis := fun _ => Some "/usr/bin/samtools";
     environ_PATH := "/usr/bin";
     spawn := fun cmd _ => Return (quiet cmd) |}.

(** A flagstat report of eleven lines with the given lines 0, 4, 8
    and 10. *)
Definition report (l0 l4 l8 l10 : string) : string :=
  l0 ++ nl ++ "0 + 0 secondary" ++ nl ++ "0 + 0 supplementary" ++ nl ++
  "0 + 0 duplicates" ++ nl ++ l4 ++ nl ++ "12 + 0 paired in sequencing" ++ nl ++
  "6 + 0 read1" ++ nl ++ "6 + 0 read2" ++ nl ++ l8 ++ nl ++
  "7 + 0 with itself and mate mapped" ++ nl ++ l10 ++ nl.

Definition report_12 : string :=
  report "10 + 2 in total (QC-passed reads + QC-failed reads)"
         "8 + 0 mapped (66.67% : N/A)"
         "6 + 0 properly paired (50.00% : N/A)"
         "1 + 0 singletons (8.33% : N/A)".

Definition report_empty : string :=
  report "0 + 0 in total (QC-passed reads + QC-failed reads)"
         "0 + 0 mapped (N/A : N/A)"
         "0 + 0 properly paired (N/A : N/A)"
         "0 + 0 singletons (N/A : N/A)".

End Scenario.

(* ================================================================== *)
(** ** Further vocabulary: commands, lookups and outputs *)

Module Terms.
Import Py Re Eff SamTools Spec.

(** The list [_is_valid] looks tokens up in. *)
Definition ignored_tokens (ignore : option (list string)) : list string :=
  match ignore with None => ["xxx"] | Some l => l end.

(** [whereis('samtools')] gives a falsy value. *)
Definition samtools_missing (w : world) : bool :=
  match whereis w "samtools" with
  | None => true
  | Some p => is_empty p
  end.

(** The exception of [_check_prog]. *)
Definition tool_not_found (w : world) : exn :=
  RuntimeError
    ("samtools command not found in your PATH environmental variable. "
     ++ environ_PATH w).

Definition sort_command (ofile : string) : string :=
  "samtools sort -l 9 -O BAM > " ++ ofile.

Definition view_command (ifile : string) : string :=
  "samtools view -bS " ++ ifile.

Definition flagstat_command (ifile : string) : string :=
  "samtools flagstat " ++ ifile.

(** The decoded standard output of [cmd] run without a working
    directory, or the exception met on the way. *)
Definition decoded_output (w : world) (cmd : string) : outcome string :=
  match spawn w cmd None with
  | Raise e => Raise e
  | Return p =>
      match communicate_result p with
      | Raise e => Raise e
      | Return out => decoded out
      end
  end.

(** The message logged when the [try] block of a conversion or of the
    index creation raises. *)
Definition failed_to_convert (ifile ofile : string) (ex : exn) : event :=
  EvLog ("failed to convert " ++ ifile ++ " to " ++ ofile ++ ". " ++ str ex)
        (Some ERROR) None.

(** Environments for the statements below: no samtools on the PATH;
    a [view] stage that cannot be launched; a samtools that prints the
    flagstat report of twelve reads. *)
Definition no_samtools : world :=
  {| path_exists := fun _ => true;
     whereis := fun _ => None;
     environ_PATH := "/usr/bin";
     spawn := fun cmd _ => Return (Scenario.quiet cmd) |}.

Definition view_fails : world :=
  {| path_exists := fun _ => true;
     whereis := fun _ => Some "/usr/bin/samtools";
     environ_PATH := "/usr/bin";
     spawn := fun cmd _ =>
       if startswith cmd "samtools view"
       then Raise (Raised "OSError" "cannot fork")
       else Return (Scenario.quiet cmd) |}.

Definition prints_report : world :=
  {| path_exists := fun _ => true;
     whereis := fun _ => Some "/usr/bin/samtools";
     environ_PATH := "/usr/bin";
     spawn := fun cmd _ =>
       Return {| command := cmd;
                 communicate_result :=
                   Return {| bytes_repr := "b'...'";
                             decoded := Return Scenario.report_12 |};
                 wait_result := Return tt |} |}.

(** The message logged before the two stages of the sorted
    conversion are launched. *)
Definition sorting (i d : string) : event :=
  EvLog ("Converting sam to sorted bam for file: " ++ i ++ " with cwd: " ++ d)
        None None.

(** How a status-returning operation may end: with the status 0 or 1,
    or with one of the exceptions the module raises itself. *)
Definition ends_well (o : outcome Z) : bool :=
  match o with
  | Return r => (r =? 0)%Z || (r =? 1)%Z
  | Raise (Exception _) | Raise (RuntimeError _) => true
  | Raise _ => false
  end.

(** The status of a float against the clamp: [x > 100.0] is false. *)
Definition at_most_hundred (r : number) : bool :=
  match r with
  | PyInt n => (n =? 0)%Z
  | PyFloat x => negb (PyFloat.gt x PyFloat.hundred)
  end.

End Terms.

(* ================================================================== *)
(** ** Facts about the string primitives *)

Module PyFacts.
Import Py.

Lemma length_app (a b : string) :
  String.length (a ++ b) = String.length a + String.length b.
Proof. induction a as [|c a IH]; simpl; [reflexivity | now rewrite IH]. Qed.

Lemma substring_zero_length (s : string) : substring 0 0 s = "".
Proof. destruct s; reflexivity. Qed.

Lemma substring_all (s : string) (n : nat) :
  String.length s <= n -> substring 0 n s = s.
Proof.
  revert n; induction s as [|c s IH]; intros [|n] H; simpl in *;
    try reflexivity; try lia.
  now rewrite IH by lia.
Qed.

(** The first [k] characters followed by the rest give the string back. *)
Lemma substring_split (s : string) (k m : nat) :
  String.length s <= k + m -> substring 0 k s ++ substring k m s = s.
Proof.
  revert s; induction k as [|k IH]; intros s H.
  - rewrite substring_zero_length; simpl. now apply substring_all.
  - destruct s as [|c s]; simpl in *; [reflexivity|].
    now rewrite IH by lia.
Qed.

Lemma substring_app_left (a b : string) :
  substring 0 (String.length a) (a ++ b) = a.
Proof.
  induction a as [|c a IH]; simpl.
  - apply substring_zero_length.
  - now rewrite IH.
Qed.

Lemma substring_app_right (a b : string) :
  substring (String.length a) (String.length b) (a ++ b) = b.
Proof.
  induction a as [|c a IH]; simpl; [|exact IH].
  now apply substring_all.
Qed.

Lemma length_substring (s : string) (i n : nat) :
  String.length (substring i n s) = Nat.min n (String.length s - i).
Proof.
  revert i n; induction s as [|c s IH]; intros i n.
  - destruct i, n; reflexivity.
  - destruct i as [|i]; simpl.
    + destruct n as [|n]; simpl; [reflexivity|].
      rewrite IH. now rewrite Nat.sub_0_r.
    + apply IH.
Qed.

(** [s == s[:-n] + s[-n:]]. *)
Lemma slice_split (n : nat) (s : string) :
  slice_drop_last n s ++ slice_last n s = s.
Proof. unfold slice_drop_last, slice_last. apply substring_split. lia. Qed.

Lemma slice_last_app (stem ext : string) :
  slice_last (String.length ext) (stem ++ ext) = ext.
Proof.
  unfold slice_last. rewrite length_app.
  replace (String.length stem + String.length ext - String.length ext)
    with (String.length stem) by lia.
  apply substring_app_right.
Qed.

Lemma slice_drop_last_app (stem ext : string) :
  slice_drop_last (String.length ext) (stem ++ ext) = stem.
Proof.
  unfold slice_drop_last. rewrite length_app.
  replace (String.length stem + String.length ext - String.length ext)
    with (String.length stem) by lia.
  apply substring_app_left.
Qed.

Lemma endswith_app (stem ext : string) : endswith (stem ++ ext) ext = true.
Proof.
  unfold endswith. rewrite slice_last_app, String.eqb_refl, length_app.
  rewrite andb_true_r. apply Nat.leb_le. lia.
Qed.

(** [endswith] says that the string is some stem followed by [ext]. *)
Lemma endswith_inv (s ext : string) :
  endswith s ext = true -> exists stem, s = stem ++ ext.
Proof.
  unfold endswith. intros H. apply andb_true_iff in H as [_ H].
  apply String.eqb_eq in H.
  exists (slice_drop_last (String.length ext) s).
  rewrite <- H at 2. symmetry. apply slice_split.
Qed.

End PyFacts.

(* ================================================================== *)
(** ** Facts about the conversion of ints to doubles *)

Module FloatFacts.

Lemma shr_1_m (r : shr_record) :
  (0 <= shr_m r)%Z -> shr_m (shr_1 r) = (shr_m r / 2)%Z.
Proof.
  destruct r as [m rb sb]; simpl. intros Hm.
  destruct m as [|p|p]; simpl; try lia; [reflexivity|].
  destruct p as [p|p|]; simpl.
  - rewrite Pos2Z.inj_xI. rewrite Z.add_comm, Z.mul_comm, Z.div_add by lia. reflexivity.
  - rewrite Pos2Z.inj_xO. rewrite Z.mul_comm, Z.div_mul by lia. reflexivity.
  - reflexivity.
Qed.

Lemma iter_shr_1_m (p : positive) :
  forall r, (0 <= shr_m r)%Z ->
    shr_m (iter_pos shr_1 p r) = (shr_m r / 2 ^ Zpos p)%Z.
Proof.
  induction p as [p IH|p IH|]; intros r Hr; simpl iter_pos.
  - assert (H1 : (0 <= shr_m (shr_1 r))%Z).
    { rewrite shr_1_m by assumption. apply Z.div_pos; lia. }
    assert (H2 : (0 <= shr_m (iter_pos shr_1 p (shr_1 r)))%Z).
    { rewrite IH by assumption. apply Z.div_pos; lia. }
    rewrite IH, IH, shr_1_m by assumption.
    rewrite !Z.div_div by lia.
    f_equal.
    replace (Zpos p~1) with (1 + Zpos p + Zpos p)%Z by lia.
    rewrite !Z.pow_add_r by lia. change (2 ^ 1)%Z with 2%Z. lia.
  - assert (H2 : (0 <= shr_m (iter_pos shr_1 p r))%Z).
    { rewrite IH by assumption. apply Z.div_pos; lia. }
    rewrite IH, IH by assumption.
    rewrite !Z.div_div by lia.
    f_equal.
    replace (Zpos p~0) with (Zpos p + Zpos p)%Z by lia.
    rewrite !Z.pow_add_r by lia. lia.
  - rewrite shr_1_m by assumption. reflexivity.
Qed.

Lemma digits2_pos_lower (p : positive) :
  (2 ^ (Zpos (digits2_pos p) - 1) <= Zpos p)%Z.
Proof.
  induction p as [p IH|p IH|]; simpl digits2_pos.
  - rewrite Pos2Z.inj_succ.
    replace (Z.succ (Zpos (digits2_pos p)) - 1)%Z
      with (1 + (Zpos (digits2_pos p) - 1))%Z by lia.
    rewrite Z.pow_add_r by lia. change (2 ^ 1)%Z with 2%Z.
    set (X := (2 ^ (Zpos (digits2_pos p) - 1))%Z) in *. lia.
  - rewrite Pos2Z.inj_succ.
    replace (Z.succ (Zpos (digits2_pos p)) - 1)%Z
      with (1 + (Zpos (digits2_pos p) - 1))%Z by lia.
    rewrite Z.pow_add_r by lia. change (2 ^ 1)%Z with 2%Z.
    set (X := (2 ^ (Zpos (digits2_pos p) - 1))%Z) in *. lia.
  - simpl. lia.
Qed.

Section Shift.
Variables prec emax : Z.
Hypothesis prec_pos : (0 < prec)%Z.

(** Shifting a positive mantissa to its format exponent keeps it
    positive, as long as the exponent is not below [emin]. *)
Lemma shr_fexp_positive (m e : Z) (l : location) :
  (0 < m)%Z -> (emin prec emax <= e)%Z ->
  (0 < shr_m (fst (shr_fexp prec emax m e l)))%Z /\
  (emin prec emax <= snd (shr_fexp prec emax m e l))%Z.
Proof.
  intros Hm He. unfold shr_fexp, shr.
  assert (Hrec : shr_m (shr_record_of_loc m l) = m).
  { destruct l as [|[ | | ]]; reflexivity. }
  destruct m as [|p|p]; try lia. simpl Zdigits2.
  set (n := (fexp prec emax (Zpos (digits2_pos p) + e) - e)%Z).
  assert (Hn : (n <= Zpos (digits2_pos p) - 1)%Z).
  { unfold n, fexp. lia. }
  destruct n as [|q|q] eqn:En; simpl; try (rewrite Hrec; lia).
  rewrite iter_shr_1_m by (rewrite Hrec; lia).
  rewrite Hrec. split; [|lia].
  apply Z.div_str_pos. split; [lia|].
  pose proof (digits2_pos_lower p).
  assert (2 ^ Zpos q <= 2 ^ (Zpos (digits2_pos p) - 1))%Z
    by (apply Z.pow_le_mono_r; lia).
  lia.
Qed.

Lemma round_nearest_even_positive (m : Z) (l : location) :
  (0 < m)%Z -> (0 < round_nearest_even m l)%Z.
Proof.
  intros Hm. unfold round_nearest_even.
  destruct l as [|[ | | ]]; try lia. destruct (Z.even m); lia.
Qed.

Lemma binary_round_aux_nonzero (sx : bool) (m e : Z) (l : location) :
  (0 < m)%Z -> (emin prec emax <= e)%Z ->
  forall s, binary_round_aux prec emax sx m e l <> S754_zero s.
Proof.
  intros Hm He s. unfold binary_round_aux.
  pose proof (shr_fexp_positive m e l Hm He) as [H1 H1e].
  destruct (shr_fexp prec emax m e l) as [mrs1 e1]; simpl in H1, H1e.
  pose proof (shr_fexp_positive _ e1 loc_Exact
                (round_nearest_even_positive _ (loc_of_shr_record mrs1) H1) H1e)
    as [H2 _].
  destruct (shr_fexp prec emax
              (round_nearest_even (shr_m mrs1) (loc_of_shr_record mrs1))
              e1 loc_Exact) as [mrs2 e2]; simpl in H2.
  destruct (shr_m mrs2); try lia.
  destruct (Z.leb e2 (emax - prec)); discriminate.
Qed.

End Shift.

(** [float(n)] of an int other than 0 is never [0.0]. *)
Lemma float_of_nonzero (n : Z) (x : spec_float) :
  n <> 0%Z -> PyFloat.of_int n = Some x -> PyFloat.is_zero x = false.
Proof.
  intros Hn. unfold PyFloat.of_int, binary_normalize.
  assert (Hround : forall sx p s,
            binary_round PyFloat.prec PyFloat.emax sx p 0 <> S754_zero s).
  { intros sx p s. unfold binary_round.
    destruct (shl_align p 0 _) as [mz ez] eqn:Hal.
    apply binary_round_aux_nonzero.
    - unfold PyFloat.prec; lia.
    - lia.
    - unfold shl_align in Hal.
      destruct (fexp PyFloat.prec PyFloat.emax (Zpos (digits2_pos p) + 0) - 0)%Z
        eqn:Hf; inversion Hal; subst;
        try (unfold emin, PyFloat.prec, PyFloat.emax; lia).
      unfold fexp in *. lia. }
  destruct n as [|p|p]; [congruence| |].
  - specialize (Hround false p).
    destruct (binary_round PyFloat.prec PyFloat.emax false p 0);
      intros H; inversion H; subst; try reflexivity.
    exfalso. eapply Hround. reflexivity.
  - specialize (Hround true p).
    destruct (binary_round PyFloat.prec PyFloat.emax true p 0);
      intros H; inversion H; subst; try reflexivity.
    exfalso. eapply Hround. reflexivity.
Qed.

End FloatFacts.

(* ================================================================== *)
(** ** Facts about computations *)

Module EffFacts.
Import Eff.

Lemma bind_ret {A B} (a : A) (k : A -> M B) : bind (ret a) k = k a.
Proof. unfold bind, ret. now destruct (k a). Qed.

Lemma bind_raise {A B} (e : exn) (k : A -> M B) : bind (raise e) k = raise e.
Proof. reflexivity. Qed.

Lemma result_bind {A B} (m : M A) (k : A -> M B) :
  result (bind m k) =
  match result m with
  | Return a => result (k a)
  | Raise e => Raise e
  end.
Proof.
  destruct m as [t [a|e]]; simpl; [|reflexivity]. now destruct (k a).
Qed.

Lemma result_try_except {A} (m : M A) (h : exn -> M A) :
  result (try_except m h) =
  match result m with
  | Return a => Return a
  | Raise e => result (h e)
  end.
Proof.
  destruct m as [t [a|e]]; simpl; [reflexivity|]. now destruct (h e).
Qed.

Lemma trace_bind {A B} (m : M A) (k : A -> M B) :
  trace (bind m k) =
  match result m with
  | Return a => (trace m ++ trace (k a))%list
  | Raise e => trace m
  end.
Proof.
  destruct m as [t [a|e]]; simpl; [|reflexivity]. now destruct (k a).
Qed.

End EffFacts.

(* ================================================================== *)
(** ** Path resolution *)

Section PathResolution.
Import Py Eff SamTools Spec PyFacts.

(** With no output name and an extension that the name does not end
    with, the extension is appended. *)
Lemma prepare_paths_appends (ifile ipath iext oext : string)
    (opath : option string) :
  output_dir_ok opath = true ->
  String.eqb (slice_last 4 ifile) iext = false ->
  _prepare_paths ifile (Some ipath) None opath iext oext =
  let odir := match opath with None => ipath | Some o => o end in
  ([], Return (path_join ipath ifile, path_join odir (ifile ++ oext), odir)).
Proof.
  intros Hdir Hne. unfold _prepare_paths.
  destruct opath as [o|]; simpl in Hdir; [rewrite Hdir|]; simpl;
    now rewrite Hne.
Qed.

(** With no output name and a name whose last four characters are the
    extension, these four characters are replaced. *)
Lemma prepare_paths_replaces (ifile ipath iext oext : string)
    (opath : option string) :
  output_dir_ok opath = true ->
  String.eqb (slice_last 4 ifile) iext = true ->
  _prepare_paths ifile (Some ipath) None opath iext oext =
  let odir := match opath with None => ipath | Some o => o end in
  ([], Return (path_join ipath ifile,
               path_join odir (slice_drop_last 4 ifile ++ oext), odir)).
Proof.
  intros Hdir Heq. unfold _prepare_paths.
  destruct opath as [o|]; simpl in Hdir; [rewrite Hdir|]; simpl;
    now rewrite Heq.
Qed.

(** C7 (amended): for an input extension of exactly four characters and
    no output name, a name that ends with the input extension gets
    exactly that trailing extension replaced by the output extension, and
    a name that does not end with it gets the output extension appended. *)
Theorem prepare_paths_default_name :
  forall (ifile ipath iext oext : string) (opath : option string),
    String.length iext = 4 ->
    output_dir_ok opath = true ->
    let odir := match opath with None => ipath | Some o => o end in
    (forall stem, ifile = stem ++ iext ->
       _prepare_paths ifile (Some ipath) None opath iext oext =
       ([], Return (path_join ipath ifile,
                    path_join odir (stem ++ oext), odir))) /\
    ((forall stem, ifile <> stem ++ iext) ->
       _prepare_paths ifile (Some ipath) None opath iext oext =
       ([], Return (path_join ipath ifile,
                    path_join odir (ifile ++ oext), odir))).
Proof.
  intros ifile ipath iext oext opath Hlen Hdir odir. split.
  - intros stem ->.
    rewrite prepare_paths_replaces; trivial.
    + cbv zeta. rewrite <- Hlen. now rewrite slice_drop_last_app.
    + rewrite <- Hlen. rewrite slice_last_app. apply String.eqb_refl.
  - intros Hno. apply prepare_paths_appends; trivial.
    destruct (String.eqb (slice_last 4 ifile) iext) eqn:E; trivial.
    apply String.eqb_eq in E. exfalso.
    apply (Hno (slice_drop_last 4 ifile)).
    rewrite <- E. symmetry. apply slice_split.
Qed.

Lemma prepare_paths_default_name_witness :
  String.length ".bam" = 4 /\ output_dir_ok None = true /\
  _prepare_paths "reads.bam" (Some "/data") None None ".bam" ".bai" =
  ([], Return ("/data/reads.bam", "/data/reads.bai", "/data")).
Proof.
  split; [reflexivity|]. split; [reflexivity|].
  exact (proj1 (prepare_paths_default_name "reads.bam" "/data" ".bam" ".bai"
                  None eq_refl eq_refl) "reads" eq_refl).
Defined.

(** C7 (as stated) fails for an extension of another length: the name
    ends with the input extension and yet the output extension is
    appended. *)
Lemma prepare_paths_long_extension :
  endswith "r.fastq" ".fastq" = true /\
  "r.fastq" = "r" ++ ".fastq" /\
  _prepare_paths "r.fastq" (Some "/d") None None ".fastq" ".sam" =
  ([], Return ("/d/r.fastq", "/d/r.fastq.sam", "/d")) /\
  "/d/r.fastq.sam" <> path_join "/d" ("r" ++ ".sam").
Proof. repeat split; try reflexivity. discriminate. Qed.

End PathResolution.

(* ================================================================== *)
(** ** The operations: path resolution and the existence check *)

Section ExistenceCheck.
Import Py Eff SamTools Spec PyFacts EffFacts.

(** With an input directory and an acceptable output directory, path
    resolution returns, and the input path is the joined one. *)
Lemma prepare_paths_returns (ifile p iext oext : string)
    (ofile opath : option string) :
  output_dir_ok opath = true ->
  exists o d,
    _prepare_paths ifile (Some p) ofile opath iext oext =
    ret (path_join p ifile, o, d).
Proof.
  intros Hdir. unfold _prepare_paths.
  destruct opath as [od|]; simpl in Hdir; [rewrite Hdir|]; simpl;
    eexists; eexists; reflexivity.
Qed.

(** C9: a conversion or an index creation whose resolved input path
    does not exist raises the "does not exist" RuntimeError with an
    empty trace: neither the lookup of samtools nor any process launch
    has happened. *)
Theorem missing_input_raises_before_any_launch :
  forall (self : SamTools.t) (w : world) (ifile p : string)
         (ofile opath : option string) (flag : bool)
         (ignore : option (list string)),
    output_dir_ok opath = true ->
    path_exists w (path_join p ifile) = false ->
    convert_sam_to_sorted_bam self w ifile (Some p) ofile opath flag ignore =
      ([], Raise (RuntimeError ("Input sam file does not exist: "
                                ++ path_join p ifile))) /\
    convert_bam_to_sam self w ifile (Some p) ofile opath flag ignore =
      ([], Raise (RuntimeError ("Input bam file does not exist: "
                                ++ path_join p ifile))) /\
    create_bai_from_bam self w ifile (Some p) ofile opath flag ignore =
      ([], Raise (RuntimeError ("Input bam file does not exist: "
                                ++ path_join p ifile))).
Proof.
  intros self w ifile p ofile opath flag ignore Hdir Hmiss.
  unfold convert_sam_to_sorted_bam, convert_bam_to_sam, create_bai_from_bam.
  destruct (prepare_paths_returns ifile p ".sam" ".bam" ofile opath Hdir)
    as (o1 & d1 & ->).
  destruct (prepare_paths_returns ifile p ".bam" ".bai" ofile opath Hdir)
    as (o2 & d2 & ->).
  rewrite !bind_ret, Hmiss. simpl. repeat split.
Qed.

Lemma missing_input_raises_before_any_launch_witness :
  output_dir_ok None = true /\
  path_exists Scenario.no_files (path_join "/data" "reads.sam") = false /\
  convert_sam_to_sorted_bam Scenario.no_logger Scenario.no_files "reads.sam"
    (Some "/data") None None true (Some default_ignore) =
  ([], Raise (RuntimeError "Input sam file does not exist: /data/reads.sam")).
Proof.
  split; [reflexivity|]. split; [reflexivity|].
  exact (proj1 (missing_input_raises_before_any_launch Scenario.no_logger
                  Scenario.no_files "reads.sam" "/data" None None true
                  (Some default_ignore) eq_refl eq_refl)).
Defined.

(** Whatever the arguments, an operation on an input that does not
    exist ends by raising, having called no collaborator at all. *)
Lemma missing_input_never_launches (self : SamTools.t) (w : world)
    (ifile : string) (ipath ofile opath : option string) (flag : bool)
    (ignore : option (list string)) :
  (forall p, ipath = Some p -> path_exists w (path_join p ifile) = false) ->
  (exists e, convert_sam_to_sorted_bam self w ifile ipath ofile opath flag
               ignore = ([], Raise e)) /\
  (exists e, convert_bam_to_sam self w ifile ipath ofile opath flag
               ignore = ([], Raise e)) /\
  (exists e, create_bai_from_bam self w ifile ipath ofile opath flag
               ignore = ([], Raise e)).
Proof.
  intros Hmiss.
  unfold convert_sam_to_sorted_bam, convert_bam_to_sam, create_bai_from_bam,
    _prepare_paths.
  destruct ipath as [p|]; [|repeat split; eexists; reflexivity].
  specialize (Hmiss p eq_refl).
  destruct opath as [o|]; [destruct (startswith o "/")|]; simpl;
    rewrite ?bind_ret, ?Hmiss; simpl; repeat split; eexists; reflexivity.
Qed.

(** C1: convert_bam_to_sam resolves its paths with the pair
    ('.sam', '.bam').  For a name that ends in '.bam' the default output
    name is the name with '.bam' appended, not the name with '.bam'
    replaced by '.sam': the command launched for reads.bam writes to
    reads.bam.bam. *)
Theorem convert_bam_to_sam_default_output :
  convert_bam_to_sam Scenario.no_logger Scenario.all_good "reads.bam"
    (Some "/data") None None false (Some default_ignore) =
  ([EvWhereis "samtools";
    EvLog ("Converting bam to sam for file: /data/reads.bam" ++
           " with output file: /data/reads.bam.bam and cwd: /data")
          None None;
    EvPopen "samtools view -h /data/reads.bam > /data/reads.bam.bam"
            (Some "/data") None;
    EvCommunicate "samtools view -h /data/reads.bam > /data/reads.bam.bam"],
   Return 0%Z) /\
  "/data/reads.bam.bam" <> path_join "/data" ("reads" ++ ".sam").
Proof. split; [reflexivity | discriminate]. Qed.

End ExistenceCheck.

(* ================================================================== *)
(** ** The flagstat parser *)

Section Parser.
Import Py Re Eff SamTools Spec EffFacts FloatFacts.

Lemma numbers_at_some (lines : list string) (i : nat) (a b : string) :
  numbers_at lines i = Some (a, b) ->
  exists l, item lines i = ret l /\ two_nums_match l = Some (a, b).
Proof.
  unfold numbers_at, item. destruct (nth_error lines i) as [l|];
    [|discriminate].
  intros H. now exists l.
Qed.

Lemma numbers_at_none (lines : list string) (i : nat) :
  numbers_at lines i = None ->
  item lines i = raise IndexError \/
  exists l, item lines i = ret l /\ two_nums_match l = None.
Proof.
  unfold numbers_at, item. destruct (nth_error lines i) as [l|].
  - intros H. right. now exists l.
  - now left.
Qed.

Lemma bind_returned {A B} (t : list event) (a : A) (k : A -> M B) :
  bind (t, Return a) k = ((t ++ trace (k a))%list, result (k a)).
Proof. unfold bind, trace, result. now destruct (k a). Qed.

Lemma bind_raised {A B} (t : list event) (e : exn) (k : A -> M B) :
  bind (t, Raise e) k = (t, Raise e).
Proof. reflexivity. Qed.

(** How the block that sets the rate can end. *)
Lemma rate_block_zero (self : SamTools.t) (lg : Eff.logger) (mapped_r : Z) :
  logger self = Some lg ->
  alignment_rate_block self 0 mapped_r =
  ([EvLoggerCall lg ERROR zero_total_message], Return (PyInt 0)).
Proof.
  intros Hlg. unfold alignment_rate_block, logger_error. now rewrite Hlg.
Qed.

Lemma rate_block_zero_no_logger (self : SamTools.t) (mapped_r : Z) :
  logger self = None ->
  alignment_rate_block self 0 mapped_r = ([], Raise (AttributeError "error")).
Proof.
  intros Hlg. unfold alignment_rate_block, logger_error. now rewrite Hlg.
Qed.

Lemma rate_block_nonzero (self : SamTools.t) (total_read mapped_r : Z)
    (fm ft : spec_float) :
  total_read <> 0%Z ->
  PyFloat.of_int mapped_r = Some fm ->
  PyFloat.of_int total_read = Some ft ->
  alignment_rate_block self total_read mapped_r =
  ([], Return (PyFloat
     (let rate := PyFloat.mul (PyFloat.div fm ft) PyFloat.hundred in
      if PyFloat.gt rate PyFloat.hundred then PyFloat.hundred else rate))).
Proof.
  intros Hnz Hm Ht. unfold alignment_rate_block.
  rewrite (proj2 (Z.eqb_neq _ _) Hnz).
  unfold float. rewrite Hm, Ht, !bind_ret.
  unfold truediv. rewrite (float_of_nonzero total_read ft Hnz Ht), bind_ret.
  cbv zeta.
  now destruct (PyFloat.gt _ _).
Qed.

Lemma rate_block_overflow (self : SamTools.t) (total_read mapped_r : Z) :
  total_read <> 0%Z ->
  PyFloat.of_int mapped_r = None \/ PyFloat.of_int total_read = None ->
  alignment_rate_block self total_read mapped_r = ([], Raise OverflowError).
Proof.
  intros Hnz H. unfold alignment_rate_block.
  apply Z.eqb_neq in Hnz as ->. unfold float.
  destruct (PyFloat.of_int mapped_r) as [fm|]; [|reflexivity].
  destruct H as [H|H]; [discriminate|]. now rewrite H, bind_ret.
Qed.

Lemma rate_block_returns (self : SamTools.t) (total_read mapped_r : Z) :
  rate_returns self total_read mapped_r = true ->
  exists tr rate,
    alignment_rate_block self total_read mapped_r = (tr, Return rate).
Proof.
  unfold rate_returns. destruct (total_read =? 0)%Z eqn:E.
  - apply Z.eqb_eq in E as ->.
    destruct (logger self) as [lg|] eqn:Hlg; [|discriminate]. intros _.
    rewrite (rate_block_zero self lg) by assumption. eauto.
  - apply Z.eqb_neq in E.
    destruct (PyFloat.of_int mapped_r) as [fm|] eqn:Hm; [|discriminate].
    destruct (PyFloat.of_int total_read) as [ft|] eqn:Ht; [|discriminate].
    intros _. rewrite (rate_block_nonzero self _ _ fm ft) by assumption.
    eauto.
Qed.

Lemma rate_block_cases (self : SamTools.t) (total_read mapped_r : Z) :
  (exists tr rate,
     alignment_rate_block self total_read mapped_r = (tr, Return rate)) \/
  (exists e,
     alignment_rate_block self total_read mapped_r = ([], Raise e) /\
     (e = AttributeError "error" \/ e = OverflowError)).
Proof.
  destruct (rate_returns self total_read mapped_r) eqn:R.
  - left. now apply rate_block_returns.
  - right. unfold rate_returns in R.
    destruct (total_read =? 0)%Z eqn:E.
    + apply Z.eqb_eq in E as ->.
      destruct (logger self) eqn:Hlg; [discriminate|].
      eexists. split; [now apply rate_block_zero_no_logger | now left].
    + apply Z.eqb_neq in E.
      eexists. split; [|now right].
      apply rate_block_overflow; [assumption|].
      destruct (PyFloat.of_int mapped_r); [|now left].
      destruct (PyFloat.of_int total_read); [discriminate|now right].
Qed.

(** The parser on a report whose four lines start with two numbers. *)
Lemma parser_well_formed (self : SamTools.t) (stats : string)
    (a0 b0 a4 b4 a8 b8 a10 b10 : string) (tr : list event) (rate : number) :
  let lines := splitlines stats in
  numbers_at lines 0 = Some (a0, b0) ->
  numbers_at lines 4 = Some (a4, b4) ->
  numbers_at lines 8 = Some (a8, b8) ->
  numbers_at lines 10 = Some (a10, b10) ->
  alignment_rate_block self (int a0 + int b0) (int a4) = (tr, Return rate) ->
  _extractAlignmentStatsInfo self stats =
  (tr, Return {| alignment_rate := rate;
                 multiple_alignments := 0;
                 properly_paired := int a8;
                 singletons := int a10;
                 total_reads := int a0 + int b0;
                 unmapped_reads := int a0 + int b0 - int a4;
                 mapped_reads := int a4 |}).
Proof.
  intros lines N0 N4 N8 N10 Hrate. unfold _extractAlignmentStatsInfo.
  fold lines.
  destruct (numbers_at_some _ _ _ _ N0) as (l0 & -> & M0).
  destruct (numbers_at_some _ _ _ _ N4) as (l4 & -> & M4).
  destruct (numbers_at_some _ _ _ _ N8) as (l8 & -> & M8).
  destruct (numbers_at_some _ _ _ _ N10) as (l10 & -> & M10).
  unfold group1, group2.
  repeat first [ rewrite bind_ret | rewrite M0 | rewrite M4
               | progress cbv beta iota zeta ].
  rewrite Hrate, bind_returned.
  repeat first [ rewrite bind_ret | rewrite M8 | rewrite M10
               | progress cbv beta iota zeta ].
  unfold ret, trace, result. simpl. now rewrite app_nil_r.
Qed.

Ltac run_parser :=
  unfold _extractAlignmentStatsInfo, group1, group2;
  try match goal with
      | lines := splitlines ?stats |- _ => fold lines
      end;
  repeat first
    [ rewrite bind_ret | rewrite bind_raise
    | rewrite bind_returned | rewrite bind_raised
    | progress cbv beta iota zeta
    | match goal with
      | H : item _ _ = _ |- _ => rewrite H
      | H : two_nums_match _ = _ |- _ => rewrite H
      | H : alignment_rate_block _ _ _ = _ |- _ => rewrite H
      end ].

Ltac raised :=
  do 2 eexists; split; [reflexivity | auto].

(** C5: on the report with lines "10 + 2", "8 + 0", "6 + 0" and "1 + 0"
    at indices 0, 4, 8 and 10 the parser returns 12 total, 8 mapped,
    4 unmapped, 6 properly paired, 1 singleton and the double nearest to
    66.666..., which is within 0.01 of 66.67; in general the counts are
    A+B of line 0, A of line 4, A of line 8, A of line 10, and the
    unmapped count is the total minus the mapped count. *)
Theorem flagstat_counts :
  (forall (self : SamTools.t) (stats : string),
     let lines := splitlines stats in
     numbers_at lines 0 = Some ("10", "2") ->
     numbers_at lines 4 = Some ("8", "0") ->
     numbers_at lines 8 = Some ("6", "0") ->
     numbers_at lines 10 = Some ("1", "0") ->
     exists x q,
       _extractAlignmentStatsInfo self stats =
       ([], Return {| alignment_rate := PyFloat x;
                      multiple_alignments := 0;
                      properly_paired := 6;
                      singletons := 1;
                      total_reads := 12;
                      unmapped_reads := 4;
                      mapped_reads := 8 |}) /\
       x = S754_finite false 4691249611844266 (-46) /\
       PyFloat.to_Q x = Some q /\
       (Qabs (q - (6667 # 100)) < 1 # 100)%Q) /\
  (forall (self : SamTools.t) (stats : string)
          (a0 b0 a4 b4 a8 b8 a10 b10 : string),
     let lines := splitlines stats in
     numbers_at lines 0 = Some (a0, b0) ->
     numbers_at lines 4 = Some (a4, b4) ->
     numbers_at lines 8 = Some (a8, b8) ->
     numbers_at lines 10 = Some (a10, b10) ->
     rate_returns self (int a0 + int b0) (int a4) = true ->
     exists tr rate,
       _extractAlignmentStatsInfo self stats =
       (tr, Return {| alignment_rate := rate;
                      multiple_alignments := 0;
                      properly_paired := int a8;
                      singletons := int a10;
                      total_reads := int a0 + int b0;
                      unmapped_reads := int a0 + int b0 - int a4;
                      mapped_reads := int a4 |})).
Proof.
  split.
  - intros self stats lines N0 N4 N8 N10.
    eexists. eexists. split; [|split; [reflexivity|split]].
    + apply (parser_well_formed self stats _ _ _ _ _ _ _ _ [] _
               N0 N4 N8 N10).
      vm_compute. reflexivity.
    + reflexivity.
    + vm_compute. reflexivity.
  - intros self stats a0 b0 a4 b4 a8 b8 a10 b10 lines N0 N4 N8 N10 Hrate.
    destruct (rate_block_returns _ _ _ Hrate) as (tr & rate & Hblock).
    exists tr, rate. now apply (parser_well_formed self stats a0 b0 a4 b4 a8 b8 a10 b10).
Qed.

Lemma flagstat_counts_witness :
  numbers_at (splitlines Scenario.report_12) 0 = Some ("10", "2") /\
  numbers_at (splitlines Scenario.report_12) 4 = Some ("8", "0") /\
  numbers_at (splitlines Scenario.report_12) 8 = Some ("6", "0") /\
  numbers_at (splitlines Scenario.report_12) 10 = Some ("1", "0") /\
  rate_returns Scenario.no_logger (int "10" + int "2") (int "8") = true /\
  (exists x q,
     _extractAlignmentStatsInfo Scenario.no_logger Scenario.report_12 =
     ([], Return {| alignment_rate := PyFloat x;
                    multiple_alignments := 0;
                    properly_paired := 6;
                    singletons := 1;
                    total_reads := 12;
                    unmapped_reads := 4;
                    mapped_reads := 8 |}) /\
     x = S754_finite false 4691249611844266 (-46) /\
     PyFloat.to_Q x = Some q /\
     (Qabs (q - (6667 # 100)) < 1 # 100)%Q) /\
  (exists tr rate,
     _extractAlignmentStatsInfo Scenario.no_logger Scenario.report_12 =
     (tr, Return {| alignment_rate := rate;
                    multiple_alignments := 0;
                    properly_paired := int "6";
                    singletons := int "1";
                    total_reads := int "10" + int "2";
                    unmapped_reads := int "10" + int "2" - int "8";
                    mapped_reads := int "8" |})).
Proof.
  repeat (split; [reflexivity|]). split.
  - exact (proj1 flagstat_counts Scenario.no_logger Scenario.report_12
             eq_refl eq_refl eq_refl eq_refl).
  - exact (proj2 flagstat_counts Scenario.no_logger Scenario.report_12
             "10" "2" "8" "0" "6" "0" "1" "0"
             eq_refl eq_refl eq_refl eq_refl eq_refl).
Defined.

(** C4 (amended): when line 0 reads 0 + 0, lines 4, 8 and 10 start with
    two numbers and a logger was given to the constructor, the parser
    returns with alignment_rate = 0 and has logged exactly one message,
    through the logger, at severity error. *)
Theorem zero_total_rate :
  forall (self : SamTools.t) (lg : Eff.logger) (stats : string)
         (a0 b0 a4 b4 a8 b8 a10 b10 : string),
    let lines := splitlines stats in
    logger self = Some lg ->
    numbers_at lines 0 = Some (a0, b0) ->
    int a0 = 0%Z -> int b0 = 0%Z ->
    numbers_at lines 4 = Some (a4, b4) ->
    numbers_at lines 8 = Some (a8, b8) ->
    numbers_at lines 10 = Some (a10, b10) ->
    _extractAlignmentStatsInfo self stats =
    ([EvLoggerCall lg ERROR zero_total_message],
     Return {| alignment_rate := PyInt 0;
               multiple_alignments := 0;
               properly_paired := int a8;
               singletons := int a10;
               total_reads := 0;
               unmapped_reads := - int a4;
               mapped_reads := int a4 |}).
Proof.
  intros self lg stats a0 b0 a4 b4 a8 b8 a10 b10 lines Hlg N0 Ha Hb N4 N8 N10.
  rewrite (parser_well_formed self stats a0 b0 a4 b4 a8 b8 a10 b10
             [EvLoggerCall lg ERROR zero_total_message] (PyInt 0)
             N0 N4 N8 N10).
  - now rewrite Ha, Hb.
  - rewrite Ha, Hb. now apply rate_block_zero.
Qed.

Lemma zero_total_rate_witness :
  logger Scenario.with_logger = Some (Logger "sam_tools") /\
  numbers_at (splitlines Scenario.report_empty) 0 = Some ("0", "0") /\
  _extractAlignmentStatsInfo Scenario.with_logger Scenario.report_empty =
  ([EvLoggerCall (Logger "sam_tools") ERROR zero_total_message],
   Return {| alignment_rate := PyInt 0;
             multiple_alignments := 0;
             properly_paired := 0;
             singletons := 0;
             total_reads := 0;
             unmapped_reads := 0;
             mapped_reads := 0 |}).
Proof.
  split; [reflexivity|]. split; [reflexivity|].
  exact (zero_total_rate Scenario.with_logger (Logger "sam_tools")
           Scenario.report_empty "0" "0" "0" "0" "0" "0" "0" "0"
           eq_refl eq_refl eq_refl eq_refl eq_refl eq_refl eq_refl).
Defined.

(** C4 (as stated) fails on a well-formed report with a zero total and
    a logger: the one message goes out at severity error, none at
    severity warning. *)
Lemma zero_total_logs_at_error :
  numbers_at (splitlines Scenario.report_empty) 0 = Some ("0", "0") /\
  trace (_extractAlignmentStatsInfo Scenario.with_logger
           Scenario.report_empty) =
    [EvLoggerCall (Logger "sam_tools") ERROR zero_total_message] /\
  ~ (exists lg msg,
       In (EvLoggerCall lg WARNING msg)
          (trace (_extractAlignmentStatsInfo Scenario.with_logger
                    Scenario.report_empty))).
Proof.
  split; [reflexivity|]. split; [reflexivity|].
  intros (lg & msg & [H|[]]). discriminate H.
Qed.

(** With the default constructor argument (no logger) the same report
    makes the parser raise instead of returning. *)
Lemma zero_total_without_logger :
  _extractAlignmentStatsInfo Scenario.no_logger Scenario.report_empty =
  ([], Raise (AttributeError "error")).
Proof. reflexivity. Qed.

(** C8: when one of the lines 0, 4, 8, 10 is missing or does not start
    with the two numbers, the parser raises and returns no stats: an
    IndexError for a missing line, an AttributeError for a line that
    does not match; only when lines 0 and 4 are well formed can the
    block that sets the rate raise first. *)
Theorem malformed_report_raises :
  forall (self : SamTools.t) (stats : string),
    let lines := splitlines stats in
    line_ok lines 0 && line_ok lines 4 && line_ok lines 8 &&
      line_ok lines 10 = false ->
    exists tr e,
      _extractAlignmentStatsInfo self stats = (tr, Raise e) /\
      (e = IndexError \/ e = AttributeError "group" \/
       (line_ok lines 0 = true /\ line_ok lines 4 = true /\
        (e = AttributeError "error" \/ e = OverflowError))).
Proof.
  intros self stats lines Hbad. unfold line_ok in *.
  destruct (numbers_at lines 0) as [[a0 b0]|] eqn:N0.
  2:{ destruct (numbers_at_none _ _ N0) as [H0|(l0 & H0 & M0)];
        run_parser; raised. }
  destruct (numbers_at_some _ _ _ _ N0) as (l0 & H0 & M0).
  destruct (numbers_at lines 4) as [[a4 b4]|] eqn:N4.
  2:{ destruct (numbers_at_none _ _ N4) as [H4|(l4 & H4 & M4)];
        run_parser; raised. }
  destruct (numbers_at_some _ _ _ _ N4) as (l4 & H4 & M4).
  destruct (rate_block_cases self (int a0 + int b0) (int a4))
    as [(tr & rate & Hr)|(e & Hr & He)].
  2:{ run_parser. exists [], e. split; [reflexivity|].
      right. right. auto. }
  destruct (numbers_at lines 10) as [[a10 b10]|] eqn:N10.
  2:{ destruct (numbers_at_none _ _ N10) as [H10|(l10 & H10 & M10)];
        run_parser; raised. }
  destruct (numbers_at_some _ _ _ _ N10) as (l10 & H10 & M10).
  destruct (numbers_at lines 8) as [[a8 b8]|] eqn:N8; [discriminate|].
  destruct (numbers_at_none _ _ N8) as [H8|(l8 & H8 & M8)];
    run_parser; raised.
Qed.

Lemma malformed_report_raises_witness :
  (let lines := splitlines "10 + 2 in total" in
   line_ok lines 0 && line_ok lines 4 && line_ok lines 8 &&
     line_ok lines 10 = false) /\
  exists tr e,
    _extractAlignmentStatsInfo Scenario.no_logger "10 + 2 in total" =
      (tr, Raise e) /\
    (e = IndexError \/ e = AttributeError "group" \/
     (line_ok (splitlines "10 + 2 in total") 0 = true /\
      line_ok (splitlines "10 + 2 in total") 4 = true /\
      (e = AttributeError "error" \/ e = OverflowError))).
Proof.
  split; [reflexivity|].
  exact (malformed_report_raises Scenario.no_logger "10 + 2 in total"
           eq_refl).
Defined.

End Parser.

(* ================================================================== *)
(** ** The validation classifier *)

Section Classifier.
Import Py Re Eff SamTools Spec PyFacts.

Lemma strip_prefix_app (p s : string) : strip_prefix p (p ++ s) = Some s.
Proof.
  induction p as [|c p IH]; simpl; [reflexivity|].
  now rewrite Ascii.eqb_refl.
Qed.

Lemma strip_prefix_substring (p s r : string) :
  strip_prefix p s = Some r -> substring 0 (String.length p) s = p.
Proof.
  revert s; induction p as [|c p IH]; intros s; simpl.
  - intros _. apply substring_zero_length.
  - destruct s as [|d s]; [discriminate|].
    destruct (Ascii.eqb c d) eqn:E; [|discriminate].
    apply Ascii.eqb_eq in E as <-. intros H. simpl. now rewrite (IH _ H).
Qed.

Lemma search_error_cons (c : ascii) (rest : string) :
  search_error (String c rest) =
  match strip_prefix "ERROR:" (String c rest) with
  | Some after =>
      let (tok, _) := span is_word after in
      if is_empty tok then search_error rest else Some tok
  | None => search_error rest
  end.
Proof. reflexivity. Qed.

(** A run of characters of a class followed by something else is what
    a greedy repetition of the class takes. *)
Lemma span_app (p : ascii -> bool) (tok rest : string) :
  all_chars p tok = true -> stops p rest = true ->
  span p (tok ++ rest) = (tok, rest).
Proof.
  intros Hw He. induction tok as [|c tok IH]; simpl in *.
  - destruct rest as [|d rest]; [reflexivity|].
    simpl in He. apply negb_true_iff in He. simpl. now rewrite He.
  - apply andb_true_iff in Hw as [Hc Hw]. now rewrite Hc, IH.
Qed.

(** Conversely, [span] cuts the text into such a run and the rest. *)
Lemma span_inv (p : ascii -> bool) (s tok rest : string) :
  span p s = (tok, rest) ->
  s = tok ++ rest /\ all_chars p tok = true /\ stops p rest = true.
Proof.
  revert tok rest; induction s as [|c s IH]; intros tok rest; simpl.
  - intros H; inversion H; subst. repeat split.
  - destruct (p c) eqn:Hc.
    + destruct (span p s) as [t r]. intros H; inversion H; subst.
      destruct (IH t rest eq_refl) as (-> & Ht & Hr).
      simpl. rewrite Hc. repeat split; assumption.
    + intros H; inversion H; subst. simpl. rewrite Hc. repeat split.
Qed.

Lemma span_token (tok rest : string) :
  all_word tok = true -> ends_token rest = true ->
  span is_word (tok ++ rest) = (tok, rest).
Proof. apply span_app. Qed.

Lemma strip_prefix_inv (p s r : string) :
  strip_prefix p s = Some r -> s = p ++ r.
Proof.
  revert s; induction p as [|c p IH]; intros s; simpl.
  - now intros [= ->].
  - destruct s as [|d s]; [discriminate|].
    destruct (Ascii.eqb c d) eqn:E; [|discriminate].
    apply Ascii.eqb_eq in E as <-. intros H. now rewrite (IH _ H).
Qed.

(** What the pattern [^(\d+) \+ (\d+)] matches: the line is a
    non-empty run of digits, the three characters " + ", a second
    non-empty run of digits, and a rest that does not go on with a
    digit; the groups are the two runs. *)
Lemma two_nums_match_spec (line g1 g2 : string) :
  two_nums_match line = Some (g1, g2) <->
  exists rest,
    line = g1 ++ " + " ++ g2 ++ rest /\
    all_chars is_digit g1 = true /\ is_empty g1 = false /\
    all_chars is_digit g2 = true /\ is_empty g2 = false /\
    stops is_digit rest = true.
Proof.
  unfold two_nums_match. split.
  - destruct (span is_digit line) as [a r1] eqn:S1.
    destruct (is_empty a) eqn:Ea; [discriminate|].
    destruct (strip_prefix " + " r1) as [r2|] eqn:P; [|discriminate].
    destruct (span is_digit r2) as [b rest] eqn:S2.
    destruct (is_empty b) eqn:Eb; [discriminate|].
    intros H; inversion H; subst.
    apply span_inv in S1 as (-> & Ha & _).
    apply span_inv in S2 as (-> & Hb & Hr).
    apply strip_prefix_inv in P as ->.
    exists rest. repeat split; assumption.
  - intros (rest & -> & Ha & Ea & Hb & Eb & Hr).
    rewrite (span_app is_digit g1 (" + " ++ g2 ++ rest) Ha eq_refl), Ea.
    rewrite strip_prefix_app.
    now rewrite (span_app is_digit g2 rest Hb Hr), Eb.
Qed.

(** The pattern of the flagstat lines matches exactly the lines that
    read: a non-empty run of decimal digits, a space, a plus sign, a
    space, a second non-empty run of decimal digits, and then anything
    that does not start with a digit; the two groups are the two runs,
    the first one always starting the line. *)
Theorem two_numbers_pattern :
  forall (line g1 g2 : string),
    two_nums_match line = Some (g1, g2) <->
    exists rest,
      line = g1 ++ " + " ++ g2 ++ rest /\
      all_chars is_digit g1 = true /\ is_empty g1 = false /\
      all_chars is_digit g2 = true /\ is_empty g2 = false /\
      stops is_digit rest = true.
Proof. exact two_nums_match_spec. Qed.

(** A run of digits reads as a number that is not negative. *)
Lemma int_from_nonneg (s : string) (acc : Z) :
  all_chars is_digit s = true -> (0 <= acc)%Z -> (0 <= int_from acc s)%Z.
Proof.
  revert acc; induction s as [|c s IH]; intros acc Hd Hacc;
    cbn [int_from]; [assumption|].
  simpl in Hd. apply andb_true_iff in Hd as [Hc Hd].
  apply IH; [assumption|].
  unfold is_digit in Hc. apply andb_true_iff in Hc as [Hlo _].
  apply Nat.leb_le in Hlo. unfold digit_value. lia.
Qed.

Lemma int_nonneg (s : string) :
  all_chars is_digit s = true -> (0 <= int s)%Z.
Proof. intros H. apply int_from_nonneg; [assumption|lia]. Qed.

(** The search goes past a prefix in which no [ERROR:] starts. *)
Lemma search_error_skip (pre s : string) :
  first_error_after pre (pre ++ s) ->
  search_error (pre ++ s) = search_error s.
Proof.
  unfold first_error_after.
  induction pre as [|c pre IH]; intros Hfirst; [reflexivity|].
  change (String c pre ++ s) with (String c (pre ++ s)) in *.
  rewrite search_error_cons.
  destruct (strip_prefix "ERROR:" (String c (pre ++ s))) as [after|] eqn:E.
  - exfalso. apply (Hfirst 0); [simpl; lia|].
    exact (strip_prefix_substring _ _ _ E).
  - apply IH. intros i Hi. apply (Hfirst (S i)). simpl; lia.
Qed.

(** The search returns the token of the first [ERROR:] of the line,
    whatever comes after it. *)
Lemma search_error_first (pre tok rest : string) :
  first_error_after pre (pre ++ "ERROR:" ++ tok ++ rest) ->
  is_empty tok = false -> all_word tok = true -> ends_token rest = true ->
  search_error (pre ++ "ERROR:" ++ tok ++ rest) = Some tok.
Proof.
  intros Hfirst Hne Hw He. rewrite search_error_skip by assumption.
  change ("ERROR:" ++ tok ++ rest)
    with (String "E" ("RROR:" ++ tok ++ rest)).
  rewrite search_error_cons.
  change (String "E" ("RROR:" ++ tok ++ rest))
    with ("ERROR:" ++ (tok ++ rest)).
  rewrite strip_prefix_app, span_token by assumption.
  now rewrite Hne.
Qed.

(** The loop passes when the first token of every line is ignored. *)
Lemma scan_lines_passes (ignore lines : list string) :
  (forall line tok,
     In line lines -> search_error line = Some tok ->
     mem tok ignore = true) ->
  scan_lines ignore lines = true.
Proof.
  induction lines as [|line lines IH]; intros H; simpl; [reflexivity|].
  destruct (search_error line) as [tok|] eqn:E.
  - rewrite (H line tok (or_introl eq_refl) E). simpl.
    apply IH. intros l t Hl. apply H. now right.
  - apply IH. intros l t Hl. apply H. now right.
Qed.

(** The loop fails exactly when the first token of some line is not
    ignored. *)
Lemma scan_lines_fails (ignore lines : list string) :
  scan_lines ignore lines = false <->
  exists line tok,
    In line lines /\ search_error line = Some tok /\ mem tok ignore = false.
Proof.
  induction lines as [|line lines IH]; simpl.
  - split; [discriminate|]. now intros (l & t & [] & _).
  - destruct (search_error line) as [tok|] eqn:E.
    + destruct (mem tok ignore) eqn:Hm; simpl.
      * rewrite IH. split.
        -- intros (l & t & Hl & H). exists l, t. tauto.
        -- intros (l & t & [<-|Hl] & Hs & Hn).
           ++ rewrite E in Hs. inversion Hs; subst. congruence.
           ++ exists l, t. tauto.
      * split; [|reflexivity]. intros _. exists line, tok. tauto.
    + rewrite IH. split.
      * intros (l & t & Hl & H). exists l, t. tauto.
      * intros (l & t & [<-|Hl] & Hs & Hn); [congruence|].
        exists l, t. tauto.
Qed.

(** An absent or empty report passes. *)
Lemma is_valid_absent_or_empty (ignore : option (list string)) :
  _is_valid None ignore = true /\ _is_valid (Some "") ignore = true.
Proof. split; reflexivity. Qed.

(** A report with the substring Exception fails, whatever is ignored. *)
Lemma is_valid_exception (text : string) (ignore : option (list string)) :
  contains "Exception" text = true -> _is_valid (Some text) ignore = false.
Proof. intros H. unfold _is_valid. now rewrite H. Qed.

(** Without that substring, the report fails exactly when the first
    token of some line is not in the ignore list. *)
Lemma is_valid_first_tokens (text : string) (ignore : list string) :
  contains "Exception" text = false ->
  (_is_valid (Some text) (Some ignore) = false <->
   exists line tok,
     In line (splitlines text) /\ search_error line = Some tok /\
     mem tok ignore = false).
Proof.
  intros H. unfold _is_valid. rewrite H. apply scan_lines_fails.
Qed.

(** C10: only the first ERROR:token of a line is looked up in the ignore
    list.  When in every line with a match the first ERROR: is followed
    by an ignored token, the report passes, whatever follows that token
    on the line, a later ERROR:token that is not ignored included; the
    report "ERROR:MISSING_READ_GROUP ERROR:BAD_CIGAR" passes with the
    default list. *)
Theorem first_error_token_decides :
  (forall (ignore : list string) (text : string),
     contains "Exception" text = false ->
     (forall line, In line (splitlines text) ->
        search_error line = None \/
        exists pre tok rest,
          line = pre ++ "ERROR:" ++ tok ++ rest /\
          first_error_after pre line /\
          is_empty tok = false /\ all_word tok = true /\
          ends_token rest = true /\ mem tok ignore = true) ->
     _is_valid (Some text) (Some ignore) = true) /\
  (search_error "ERROR:MISSING_READ_GROUP ERROR:BAD_CIGAR"
     = Some "MISSING_READ_GROUP" /\
   mem "BAD_CIGAR" default_ignore = false /\
   _is_valid (Some "ERROR:MISSING_READ_GROUP ERROR:BAD_CIGAR")
             (Some default_ignore) = true).
Proof.
  split; [|repeat split].
  intros ignore text Hexc Hlines. unfold _is_valid. rewrite Hexc.
  apply scan_lines_passes. intros line tok Hin Hs.
  destruct (Hlines line Hin)
    as [Hnone|(pre & t & rest & -> & Hfirst & Hne & Hw & He & Hm)].
  - congruence.
  - rewrite (search_error_first pre t rest Hfirst Hne Hw He) in Hs.
    now inversion Hs; subst.
Qed.

Lemma first_error_token_decides_witness :
  contains "Exception" "ERROR:MATE_NOT_FOUND and ERROR:BAD_CIGAR" = false /\
  _is_valid (Some "ERROR:MATE_NOT_FOUND and ERROR:BAD_CIGAR")
            (Some default_ignore) = true.
Proof.
  split; [reflexivity|].
  apply (proj1 first_error_token_decides default_ignore
           "ERROR:MATE_NOT_FOUND and ERROR:BAD_CIGAR" eq_refl).
  intros line [<-|[]]. right.
  exists "", "MATE_NOT_FOUND", " and ERROR:BAD_CIGAR".
  repeat split; try reflexivity.
  intros i Hi. simpl in Hi. lia.
Defined.

(** C3: with ignore = None the list becomes ['xxx'], which does match a
    token: the report "ERROR:xxx" has the error token xxx and passes. *)
Theorem sentinel_ignores_xxx :
  search_error "ERROR:xxx" = Some "xxx" /\
  _is_valid (Some "ERROR:xxx") None = true.
Proof. split; reflexivity. Qed.

(** C6: the report "ERROR:MATE_NOT_FOUND ERROR:SOMETHING_ELSE" contains
    ERROR: followed by a token that is not in the default ignore list,
    has no Exception in it, and passes. *)
Theorem later_error_token_passes :
  let text := "ERROR:MATE_NOT_FOUND ERROR:SOMETHING_ELSE" in
  contains "Exception" text = false /\
  splitlines text = [text] /\
  contains "ERROR:SOMETHING_ELSE" text = true /\
  mem "SOMETHING_ELSE" default_ignore = false /\
  _is_valid (Some text) (Some default_ignore) = true.
Proof. repeat split. Qed.

End Classifier.

(* ================================================================== *)
(** ** The status returned after the subprocess invocation *)

Section Pipelines.
Import Py Eff SamTools Spec EffFacts.

(** A handler that only logs makes the [try] statement return. *)
Lemma try_except_log_returns (m : M unit) (msg : exn -> string)
    (lvl : option level) (lg : option Eff.logger) :
  result (try_except m (fun ex => log (msg ex) lvl lg)) = Return tt.
Proof.
  rewrite result_try_except. destruct (result m) as [[]|e]; reflexivity.
Qed.

(** How an operation goes on once it has reached its [try] block. *)
Ltac reach Hprep Hreach :=
  rewrite Hprep, bind_ret; cbv beta iota zeta;
  destruct Hreach as (Hex & Hval & Hprog);
  rewrite Hex; cbv beta iota zeta delta [negb];
  rewrite result_bind, Hval; cbv beta iota zeta;
  rewrite result_bind, Hprog; cbv beta iota zeta.

(** C2 (amended): once an operation has reached its subprocess
    invocation, the two conversions return 0 whether or not the
    invocation raises; create_bai_from_bam returns 1 when the invocation
    raises and 0 otherwise; validate returns 1 when its invocation
    raises. *)
Theorem status_after_invocation :
  (forall (self : SamTools.t) (w : world) (ifile : string)
          (ipath ofile opath : option string) (flag : bool)
          (ignore : option (list string)) (i o d : string),
     _prepare_paths ifile ipath ofile opath ".sam" ".bam" = ret (i, o, d) ->
     reaches_pipeline self w flag i ipath ignore ->
     result (convert_sam_to_sorted_bam self w ifile ipath ofile opath flag
               ignore) = Return 0%Z /\
     result (convert_bam_to_sam self w ifile ipath ofile opath flag
               ignore) = Return 0%Z) /\
  (forall (self : SamTools.t) (w : world) (ifile : string)
          (ipath ofile opath : option string) (flag : bool)
          (ignore : option (list string)) (i o d : string),
     _prepare_paths ifile ipath ofile opath ".bam" ".bai" = ret (i, o, d) ->
     reaches_pipeline self w flag i ipath ignore ->
     result (create_bai_from_bam self w ifile ipath ofile opath flag
               ignore) =
     Return (if invocation_raises w (index_command i o) (Some d)
             then 1%Z else 0%Z)) /\
  (forall (self : SamTools.t) (w : world) (ifile p : string)
          (ignore : option (list string)),
     startswith p "/" = true ->
     path_exists w (path_join p ifile) = true ->
     invocation_raises w (picard_command (path_join p ifile)) None = true ->
     result (validate self w ifile (Some p) ignore) = Return 1%Z).
Proof.
  split; [|split].
  - intros self w ifile ipath ofile opath flag ignore i o d Hprep Hreach.
    split.
    + unfold convert_sam_to_sorted_bam. reach Hprep Hreach.
      now rewrite result_bind, try_except_log_returns.
    + unfold convert_bam_to_sam. reach Hprep Hreach.
      now rewrite result_bind, try_except_log_returns.
  - intros self w ifile ipath ofile opath flag ignore i o d Hprep Hreach.
    unfold create_bai_from_bam. reach Hprep Hreach.
    rewrite result_bind, result_try_except.
    unfold invocation_raises, index_command, log, emit, Popen, communicate,
      lift.
    destruct (spawn w _ (Some d)) as [proc|e]; simpl; [|reflexivity].
    destruct (communicate_result proc) as [out|e]; reflexivity.
  - intros self w ifile p ignore Habs Hex Hraises.
    unfold validate, absolute_input_path. rewrite Habs.
    cbv beta iota zeta delta [negb]. rewrite bind_ret, Hex.
    cbv beta iota zeta delta [negb]. rewrite result_try_except.
    unfold invocation_raises, picard_command in Hraises.
    unfold Popen, communicate, lift, log, emit.
    destruct (spawn w _ None) as [proc|e]; simpl; [|reflexivity].
    destruct (communicate_result proc) as [out|e]; [discriminate|reflexivity].
Qed.

Lemma status_after_invocation_witness :
  _prepare_paths "reads.bam" (Some "/data") None None ".bam" ".bai"
    = ret ("/data/reads.bam", "/data/reads.bai", "/data") /\
  reaches_pipeline Scenario.no_logger Scenario.no_launch false
    "/data/reads.bam" (Some "/data") (Some default_ignore) /\
  invocation_raises Scenario.no_launch
    (index_command "/data/reads.bam" "/data/reads.bai") (Some "/data")
    = true /\
  result (create_bai_from_bam Scenario.no_logger Scenario.no_launch
            "reads.bam" (Some "/data") None None false
            (Some default_ignore)) = Return 1%Z /\
  result (convert_sam_to_sorted_bam Scenario.no_logger Scenario.no_launch
            "reads.sam" (Some "/data") None None false
            (Some default_ignore)) = Return 0%Z /\
  result (validate Scenario.no_logger Scenario.no_launch "reads.bam"
            (Some "/data") (Some default_ignore)) = Return 1%Z.
Proof.
  split; [reflexivity|]. split; [repeat split|]. split; [reflexivity|].
  split; [|split].
  - exact (proj1 (proj2 status_after_invocation) Scenario.no_logger
             Scenario.no_launch "reads.bam" (Some "/data") None None false
             (Some default_ignore) "/data/reads.bam" "/data/reads.bai"
             "/data" eq_refl (conj eq_refl (conj eq_refl eq_refl))).
  - exact (proj1 (proj1 status_after_invocation Scenario.no_logger
             Scenario.no_launch "reads.sam" (Some "/data") None None false
             (Some default_ignore) "/data/reads.sam" "/data/reads.bam"
             "/data" eq_refl (conj eq_refl (conj eq_refl eq_refl)))).
  - exact (proj2 (proj2 status_after_invocation) Scenario.no_logger
             Scenario.no_launch "reads.bam" "/data" (Some default_ignore)
             eq_refl eq_refl eq_refl).
Defined.

(** C2 (as stated) fails for validate: when the validator cannot be
    launched, validate logs the failure and returns 1, not 0. *)
Lemma validate_returns_1_when_launch_raises :
  spawn Scenario.no_launch (picard_command "/data/reads.bam") None
    = Raise (Raised "OSError" "cannot fork") /\
  validate Scenario.no_logger Scenario.no_launch "reads.bam" (Some "/data")
    (Some default_ignore) =
  ([EvPopen (picard_command "/data/reads.bam") None None;
    EvLog "/data/reads.bam failed validation. cannot fork" (Some ERROR) None],
   Return 1%Z) /\
  result (validate Scenario.no_logger Scenario.no_launch "reads.bam"
            (Some "/data") (Some default_ignore)) <> Return 0%Z.
Proof. split; [reflexivity|]. split; [reflexivity|discriminate]. Qed.

End Pipelines.

(* ================================================================== *)
(** ** The primitives on sample inputs *)

Module Samples.
Import Py Re.

Import Scenario.

Example splitlines_empty : splitlines "" = [].
Proof. reflexivity. Qed.

Example splitlines_trailing_newline : splitlines ("a" ++ nl) = ["a"].
Proof. reflexivity. Qed.

Example splitlines_blank_line :
  splitlines ("a" ++ nl ++ nl ++ "b") = ["a"; ""; "b"].
Proof. reflexivity. Qed.

Example splitlines_crlf : splitlines ("a" ++ cr ++ nl ++ "b") = ["a"; "b"].
Proof. reflexivity. Qed.

Example splitlines_lfcr :
  splitlines ("a" ++ nl ++ cr ++ "b") = ["a"; ""; "b"].
Proof. reflexivity. Qed.

Example slice_short_name :
  slice_last 4 "abc" = "abc" /\ slice_drop_last 4 "abc" = "".
Proof. split; reflexivity. Qed.

Example slice_long_name :
  slice_last 4 "abcde" = "bcde" /\ slice_drop_last 4 "abcde" = "a".
Proof. split; reflexivity. Qed.

Example path_join_plain : path_join "/a" "b" = "/a/b".
Proof. reflexivity. Qed.

Example path_join_trailing_slash : path_join "/a/" "b" = "/a/b".
Proof. reflexivity. Qed.

Example path_join_absolute_name : path_join "/a" "/b" = "/b".
Proof. reflexivity. Qed.

Example two_nums_flagstat_line :
  two_nums_match "10 + 2 in total (QC-passed reads + QC-failed reads)"
  = Some ("10", "2").
Proof. reflexivity. Qed.

Example two_nums_leading_space : two_nums_match " 10 + 2" = None.
Proof. reflexivity. Qed.

Example two_nums_no_second : two_nums_match "10 + mapped" = None.
Proof. reflexivity. Qed.

Example search_error_skips_bare_marker :
  search_error "ERROR: ERROR:FOO ERROR:BAR" = Some "FOO".
Proof. reflexivity. Qed.

Example search_error_overlap : search_error "ERROR:ERROR:FOO" = Some "ERROR".
Proof. reflexivity. Qed.

Example int_leading_zeros : int "0012" = 12%Z.
Proof. reflexivity. Qed.

(** [float(2**1024 - 2**970 - 1)] is the largest double,
    [float(2**1024 - 2**970)] raises OverflowError. *)
Example float_largest :
  PyFloat.of_int (2 ^ 1024 - 2 ^ 970 - 1)
  = Some (S754_finite false (2 ^ 53 - 1) 971) /\
  PyFloat.of_int (2 ^ 1024 - 2 ^ 970) = None.
Proof. split; vm_compute; reflexivity. Qed.

Example float_ties_to_even :
  PyFloat.of_int (2 ^ 53 + 1) = Some (S754_finite false (2 ^ 52) 1) /\
  PyFloat.of_int (2 ^ 53 + 3) = Some (S754_finite false (2 ^ 52 + 2) 1).
Proof. split; vm_compute; reflexivity. Qed.

End Samples.

(* ================================================================== *)
(** ** More on the flagstat parser *)

Section ParserComplete.
Import Py Re Eff SamTools Spec Terms EffFacts FloatFacts.

Ltac step_parser :=
  unfold _extractAlignmentStatsInfo, group1, group2;
  repeat first
    [ rewrite bind_ret | rewrite bind_raise
    | rewrite bind_returned | rewrite bind_raised
    | progress cbv beta iota zeta
    | match goal with
      | H : item _ _ = _ |- _ => rewrite H
      | H : two_nums_match _ = _ |- _ => rewrite H
      | H : alignment_rate_block _ _ _ = _ |- _ => rewrite H
      end ].

(** With lines 0 and 4 readable, what the parser does is decided by the
    block that sets the rate and by lines 10 and 8, in that order. *)
Lemma parser_on_numbers (self : SamTools.t) (stats : string)
    (a0 b0 a4 b4 a8 b8 a10 b10 : string) :
  numbers_at (splitlines stats) 0 = Some (a0, b0) ->
  numbers_at (splitlines stats) 4 = Some (a4, b4) ->
  numbers_at (splitlines stats) 8 = Some (a8, b8) ->
  numbers_at (splitlines stats) 10 = Some (a10, b10) ->
  _extractAlignmentStatsInfo self stats =
  match alignment_rate_block self (int a0 + int b0) (int a4) with
  | (tr, Return rate) =>
      (tr, Return {| alignment_rate := rate;
                     multiple_alignments := 0;
                     properly_paired := int a8;
                     singletons := int a10;
                     total_reads := int a0 + int b0;
                     unmapped_reads := int a0 + int b0 - int a4;
                     mapped_reads := int a4 |})
  | (tr, Raise e) => (tr, Raise e)
  end.
Proof.
  intros N0 N4 N8 N10.
  destruct (alignment_rate_block self (int a0 + int b0) (int a4))
    as [tr [rate|e]] eqn:Hblock.
  - now apply (parser_well_formed self stats a0 b0 a4 b4 a8 b8 a10 b10).
  - destruct (numbers_at_some _ _ _ _ N0) as (l0 & H0 & M0).
    destruct (numbers_at_some _ _ _ _ N4) as (l4 & H4 & M4).
    step_parser. reflexivity.
Qed.

(** A returned statistics structure comes from four readable lines. *)
Lemma parser_inv (self : SamTools.t) (stats : string) (tr : list event)
    (s : stats_data) :
  _extractAlignmentStatsInfo self stats = (tr, Return s) ->
  exists a0 b0 a4 b4 a8 b8 a10 b10 rate,
    numbers_at (splitlines stats) 0 = Some (a0, b0) /\
    numbers_at (splitlines stats) 4 = Some (a4, b4) /\
    numbers_at (splitlines stats) 8 = Some (a8, b8) /\
    numbers_at (splitlines stats) 10 = Some (a10, b10) /\
    alignment_rate_block self (int a0 + int b0) (int a4)
      = (tr, Return rate) /\
    s = {| alignment_rate := rate;
           multiple_alignments := 0;
           properly_paired := int a8;
           singletons := int a10;
           total_reads := int a0 + int b0;
           unmapped_reads := int a0 + int b0 - int a4;
           mapped_reads := int a4 |}.
Proof.
  set (lines := splitlines stats).
  destruct (numbers_at lines 0) as [[a0 b0]|] eqn:N0.
  2:{ destruct (numbers_at_none _ _ N0) as [H0|(l0 & H0 & M0)];
        step_parser; fold lines; step_parser; discriminate. }
  destruct (numbers_at lines 4) as [[a4 b4]|] eqn:N4.
  2:{ destruct (numbers_at_some _ _ _ _ N0) as (l0 & H0 & M0).
      destruct (numbers_at_none _ _ N4) as [H4|(l4 & H4 & M4)];
        step_parser; fold lines; step_parser; discriminate. }
  destruct (numbers_at lines 10) as [[a10 b10]|] eqn:N10.
  2:{ destruct (numbers_at_some _ _ _ _ N0) as (l0 & H0 & M0).
      destruct (numbers_at_some _ _ _ _ N4) as (l4 & H4 & M4).
      destruct (alignment_rate_block self (int a0 + int b0) (int a4))
        as [t [r|e]] eqn:Hblock;
      destruct (numbers_at_none _ _ N10) as [H10|(l10 & H10 & M10)];
        step_parser; fold lines; step_parser; discriminate. }
  destruct (numbers_at lines 8) as [[a8 b8]|] eqn:N8.
  2:{ destruct (numbers_at_some _ _ _ _ N0) as (l0 & H0 & M0).
      destruct (numbers_at_some _ _ _ _ N4) as (l4 & H4 & M4).
      destruct (numbers_at_some _ _ _ _ N10) as (l10 & H10 & M10).
      destruct (alignment_rate_block self (int a0 + int b0) (int a4))
        as [t [r|e]] eqn:Hblock;
      destruct (numbers_at_none _ _ N8) as [H8|(l8 & H8 & M8)];
        step_parser; fold lines; step_parser; discriminate. }
  rewrite (parser_on_numbers self stats a0 b0 a4 b4 a8 b8 a10 b10)
    by assumption.
  destruct (alignment_rate_block self (int a0 + int b0) (int a4))
    as [t [r|e]] eqn:Hblock; [|discriminate].
  intros H; inversion H; subst.
  exists a0, b0, a4, b4, a8, b8, a10, b10, r.
  repeat split; try assumption; reflexivity.
Qed.

(** How the block that sets the rate returns. *)
Lemma rate_block_inv (self : SamTools.t) (total_read mapped_r : Z)
    (tr : list event) (rate : number) :
  alignment_rate_block self total_read mapped_r = (tr, Return rate) ->
  (total_read = 0%Z /\ rate = PyInt 0 /\
   exists lg, logger self = Some lg /\
              tr = [EvLoggerCall lg ERROR zero_total_message]) \/
  (total_read <> 0%Z /\ tr = [] /\
   exists fm ft,
     PyFloat.of_int mapped_r = Some fm /\
     PyFloat.of_int total_read = Some ft /\
     rate = PyFloat
       (let r := PyFloat.mul (PyFloat.div fm ft) PyFloat.hundred in
        if PyFloat.gt r PyFloat.hundred then PyFloat.hundred else r)).
Proof.
  destruct (Z.eq_dec total_read 0) as [->|Hnz].
  - destruct (logger self) as [lg|] eqn:Hlg.
    + rewrite (rate_block_zero self lg) by assumption.
      intros H; inversion H; subst. left. repeat split. now exists lg.
    + rewrite rate_block_zero_no_logger by assumption. discriminate.
  - destruct (PyFloat.of_int mapped_r) as [fm|] eqn:Hm.
    2:{ rewrite rate_block_overflow by auto. discriminate. }
    destruct (PyFloat.of_int total_read) as [ft|] eqn:Ht.
    2:{ rewrite rate_block_overflow by auto. discriminate. }
    rewrite (rate_block_nonzero self _ _ fm ft) by assumption.
    intros H; inversion H; subst. right. repeat split; trivial.
    now exists fm, ft.
Qed.



Lemma numbers_are_digits (lines : list string) (i : nat) (a b : string) :
  numbers_at lines i = Some (a, b) -> (0 <= int a)%Z /\ (0 <= int b)%Z.
Proof.
  unfold numbers_at. destruct (nth_error lines i) as [l|]; [|discriminate].
  intros H. apply two_nums_match_spec in H
    as (rest & _ & Ha & _ & Hb & _ & _).
  split; now apply int_nonneg.
Qed.

Lemma clamp_at_most_hundred (r : spec_float) :
  at_most_hundred
    (PyFloat (if PyFloat.gt r PyFloat.hundred then PyFloat.hundred else r))
  = true.
Proof.
  unfold at_most_hundred. destruct (PyFloat.gt r PyFloat.hundred) eqn:E.
  - reflexivity.
  - now rewrite E.
Qed.

(** Whatever statistics the parser returns: the total, mapped, properly
    paired and singleton counts are not negative, multiple_alignments
    is 0, unmapped_reads is the total minus the mapped count (and can be
    negative), and alignment_rate is the int 0 when the total is zero
    and otherwise a float that is not above 100.0. *)
Theorem returned_stats_invariants :
  forall (self : SamTools.t) (stats : string) (tr : list event)
         (s : stats_data),
    _extractAlignmentStatsInfo self stats = (tr, Return s) ->
    (0 <= total_reads s)%Z /\ (0 <= mapped_reads s)%Z /\
    (0 <= properly_paired s)%Z /\ (0 <= singletons s)%Z /\
    multiple_alignments s = 0%Z /\
    unmapped_reads s = (total_reads s - mapped_reads s)%Z /\
    at_most_hundred (alignment_rate s) = true /\
    (total_reads s = 0%Z <-> alignment_rate s = PyInt 0).
Proof.
  intros self stats tr s H.
  destruct (parser_inv _ _ _ _ H)
    as (a0 & b0 & a4 & b4 & a8 & b8 & a10 & b10 & rate &
        N0 & N4 & N8 & N10 & Hblock & ->).
  destruct (numbers_are_digits _ _ _ _ N0) as [Ha0 Hb0].
  destruct (numbers_are_digits _ _ _ _ N4) as [Ha4 _].
  destruct (numbers_are_digits _ _ _ _ N8) as [Ha8 _].
  destruct (numbers_are_digits _ _ _ _ N10) as [Ha10 _].
  cbn [total_reads mapped_reads properly_paired singletons
       multiple_alignments unmapped_reads alignment_rate].
  destruct (rate_block_inv _ _ _ _ _ Hblock)
    as [(Hz & -> & _)|(Hnz & _ & fm & ft & _ & _ & ->)].
  - repeat split; try lia; trivial.
  - cbv zeta. repeat split; try lia;
      first [ apply clamp_at_most_hundred | discriminate ].
Qed.

Lemma returned_stats_invariants_witness :
  let s := {| alignment_rate :=
                PyFloat (S754_finite false 4691249611844266 (-46));
              multiple_alignments := 0; properly_paired := 6;
              singletons := 1; total_reads := 12; unmapped_reads := 4;
              mapped_reads := 8 |} in
  _extractAlignmentStatsInfo Scenario.no_logger Scenario.report_12
    = ([], Return s) /\
  at_most_hundred (alignment_rate s) = true.
Proof.
  split; [vm_compute; reflexivity|].
  exact (proj1 (proj2 (proj2 (proj2 (proj2 (proj2 (proj2
           (returned_stats_invariants Scenario.no_logger Scenario.report_12
              [] _ eq_refl)))))))).
Defined.

(** The parser calls no collaborator but the logger, and the logger
    only when the total is zero: a returned computation has logged one
    message at severity error in that case and nothing otherwise. *)
Theorem parser_logs_only_zero_total :
  forall (self : SamTools.t) (stats : string) (tr : list event)
         (s : stats_data),
    _extractAlignmentStatsInfo self stats = (tr, Return s) ->
    (total_reads s = 0%Z /\
     exists lg, logger self = Some lg /\
                tr = [EvLoggerCall lg ERROR zero_total_message]) \/
    (total_reads s <> 0%Z /\ tr = []).
Proof.
  intros self stats tr s H.
  destruct (parser_inv _ _ _ _ H)
    as (a0 & b0 & a4 & b4 & a8 & b8 & a10 & b10 & rate &
        N0 & N4 & N8 & N10 & Hblock & ->).
  cbn [total_reads].
  destruct (rate_block_inv _ _ _ _ _ Hblock)
    as [(Hz & _ & lg & Hlg & ->)|(Hnz & -> & _)].
  - left. split; [assumption|]. now exists lg.
  - right. now split.
Qed.

Lemma parser_logs_only_zero_total_witness :
  _extractAlignmentStatsInfo Scenario.with_logger Scenario.report_empty
    = ([EvLoggerCall (Logger "sam_tools") ERROR zero_total_message],
       Return {| alignment_rate := PyInt 0; multiple_alignments := 0;
                 properly_paired := 0; singletons := 0; total_reads := 0;
                 unmapped_reads := 0; mapped_reads := 0 |}) /\
  ((0%Z = 0%Z /\
    exists lg, logger Scenario.with_logger = Some lg /\
               [EvLoggerCall (Logger "sam_tools") ERROR zero_total_message]
               = [EvLoggerCall lg ERROR zero_total_message]) \/
   (0%Z <> 0%Z /\
    [EvLoggerCall (Logger "sam_tools") ERROR zero_total_message] = [])).
Proof.
  split; [reflexivity|].
  exact (parser_logs_only_zero_total Scenario.with_logger
           Scenario.report_empty _ _ eq_refl).
Defined.

(** The parser reads nothing but the two numbers of line 0 and the
    first number of lines 4, 8 and 10: two reports that agree on these
    give the same computation, whatever their other lines, the rest of
    these four lines and the second number of lines 4, 8 and 10. *)
Theorem parser_reads_five_numbers :
  forall (self : SamTools.t) (stats stats' : string)
         (a0 b0 a4 b4 b4' a8 b8 b8' a10 b10 b10' : string),
    numbers_at (splitlines stats) 0 = Some (a0, b0) ->
    numbers_at (splitlines stats') 0 = Some (a0, b0) ->
    numbers_at (splitlines stats) 4 = Some (a4, b4) ->
    numbers_at (splitlines stats') 4 = Some (a4, b4') ->
    numbers_at (splitlines stats) 8 = Some (a8, b8) ->
    numbers_at (splitlines stats') 8 = Some (a8, b8') ->
    numbers_at (splitlines stats) 10 = Some (a10, b10) ->
    numbers_at (splitlines stats') 10 = Some (a10, b10') ->
    _extractAlignmentStatsInfo self stats
    = _extractAlignmentStatsInfo self stats'.
Proof.
  intros self stats stats' a0 b0 a4 b4 b4' a8 b8 b8' a10 b10 b10'
         N0 N0' N4 N4' N8 N8' N10 N10'.
  rewrite (parser_on_numbers self stats a0 b0 a4 b4 a8 b8 a10 b10)
    by assumption.
  now rewrite (parser_on_numbers self stats' a0 b0 a4 b4' a8 b8' a10 b10')
    by assumption.
Qed.

Lemma parser_reads_five_numbers_witness :
  numbers_at (splitlines Scenario.report_12) 4 = Some ("8", "0") /\
  numbers_at
    (splitlines (Scenario.report "10 + 2" "8 + 5 mapped" "6 + 1" "1 + 9"))
    4 = Some ("8", "5") /\
  _extractAlignmentStatsInfo Scenario.no_logger Scenario.report_12
  = _extractAlignmentStatsInfo Scenario.no_logger
      (Scenario.report "10 + 2" "8 + 5 mapped" "6 + 1" "1 + 9").
Proof.
  split; [reflexivity|]. split; [reflexivity|].
  exact (parser_reads_five_numbers Scenario.no_logger Scenario.report_12
           (Scenario.report "10 + 2" "8 + 5 mapped" "6 + 1" "1 + 9")
           "10" "2" "8" "0" "5" "6" "0" "1" "1" "0" "9"
           eq_refl eq_refl eq_refl eq_refl eq_refl eq_refl eq_refl eq_refl).
Defined.

(** Without a logger (the default of the constructor) a report whose
    line 0 adds up to zero and whose line 4 is readable makes the parser
    raise AttributeError, whatever lines 8 and 10 are. *)
Theorem zero_total_needs_logger :
  forall (self : SamTools.t) (stats : string) (a0 b0 a4 b4 : string),
    logger self = None ->
    numbers_at (splitlines stats) 0 = Some (a0, b0) ->
    (int a0 + int b0 = 0)%Z ->
    numbers_at (splitlines stats) 4 = Some (a4, b4) ->
    _extractAlignmentStatsInfo self stats
    = ([], Raise (AttributeError "error")).
Proof.
  intros self stats a0 b0 a4 b4 Hlg N0 Hz N4.
  destruct (numbers_at_some _ _ _ _ N0) as (l0 & H0 & M0).
  destruct (numbers_at_some _ _ _ _ N4) as (l4 & H4 & M4).
  pose proof (rate_block_zero_no_logger self (int a4) Hlg) as Hblock.
  rewrite <- Hz in Hblock.
  step_parser. reflexivity.
Qed.

Lemma zero_total_needs_logger_witness :
  logger Scenario.no_logger = None /\
  numbers_at (splitlines Scenario.report_empty) 0 = Some ("0", "0") /\
  _extractAlignmentStatsInfo Scenario.no_logger Scenario.report_empty
  = ([], Raise (AttributeError "error")).
Proof.
  split; [reflexivity|]. split; [reflexivity|].
  exact (zero_total_needs_logger Scenario.no_logger Scenario.report_empty
           "0" "0" "0" "0" eq_refl eq_refl eq_refl eq_refl).
Defined.

End ParserComplete.

(* ================================================================== *)
(** ** More on the validation classifier *)

Section ClassifierComplete.
Import Py Re Eff SamTools Spec Terms PyFacts.

Lemma append_assoc_s (a b c : string) : (a ++ b) ++ c = a ++ b ++ c.
Proof. induction a as [|x a IH]; simpl; [reflexivity|now rewrite IH]. Qed.

Lemma append_empty_r (a : string) : a ++ "" = a.
Proof. induction a as [|x a IH]; simpl; [reflexivity|now rewrite IH]. Qed.

Lemma contains_cons (needle : string) (c : ascii) (rest : string) :
  contains needle (String c rest) =
  startswith (String c rest) needle || contains needle rest.
Proof. reflexivity. Qed.

(** [needle in hay] holds exactly when [hay] reads
    [pre ++ needle ++ post]. *)
Lemma contains_intro (needle pre post : string) :
  contains needle (pre ++ needle ++ post) = true.
Proof.
  induction pre as [|c pre IH].
  - change ("" ++ needle ++ post) with (needle ++ post).
    destruct (needle ++ post) as [|c hay] eqn:E.
    + destruct needle; [reflexivity|discriminate].
    + rewrite contains_cons. unfold startswith.
      rewrite <- E, strip_prefix_app. reflexivity.
  - change (String c pre ++ needle ++ post)
      with (String c (pre ++ needle ++ post)).
    rewrite contains_cons, IH. apply orb_true_r.
Qed.

Lemma contains_inv (needle hay : string) :
  contains needle hay = true -> exists pre post, hay = pre ++ needle ++ post.
Proof.
  induction hay as [|c hay IH].
  - simpl. destruct needle; [|discriminate]. intros _. now exists "", "".
  - rewrite contains_cons. intros H. apply orb_true_iff in H as [H|H].
    + unfold startswith in H.
      destruct (strip_prefix needle (String c hay)) as [r|] eqn:E;
        [|discriminate].
      exists "", r. exact (strip_prefix_inv _ _ _ E).
    + destruct (IH H) as (pre & post & ->).
      now exists (String c pre), post.
Qed.

(** A substring of a substring is a substring. *)
Lemma contains_within (needle pre mid post : string) :
  contains needle mid = true ->
  contains needle (pre ++ mid ++ post) = true.
Proof.
  intros H. destruct (contains_inv _ _ H) as (p & q & ->).
  rewrite !append_assoc_s, <- (append_assoc_s pre p).
  apply contains_intro.
Qed.

(** Every line of [splitlines] is a piece of the text. *)
Lemma splitlines_from_pieces (s cur : string) (after_cr : bool)
    (line : string) :
  In line (splitlines_from cur after_cr s) ->
  exists pre post, cur ++ s = pre ++ line ++ post.
Proof.
  revert cur after_cr; induction s as [|c s IH]; intros cur after_cr; simpl.
  - destruct (is_empty cur); [intros []|]. intros [<-|[]].
    exists "", "". now rewrite append_empty_r.
  - destruct (after_cr && Ascii.eqb c "010").
    + intros H. destruct (IH _ _ H) as (pre & post & E). simpl in E.
      exists (cur ++ String c pre), post.
      rewrite E, append_assoc_s. reflexivity.
    + destruct (is_linebreak c).
      * intros [<-|H].
        -- now exists "", (String c s).
        -- destruct (IH _ _ H) as (pre & post & E). simpl in E.
           exists (cur ++ String c pre), post.
           rewrite E, append_assoc_s. reflexivity.
      * intros H. destruct (IH _ _ H) as (pre & post & E).
        exists pre, post. rewrite <- E, append_assoc_s. reflexivity.
Qed.

Lemma splitlines_pieces (text line : string) :
  In line (splitlines text) -> exists pre post, text = pre ++ line ++ post.
Proof. apply (splitlines_from_pieces text "" false). Qed.

(** The token the search returns stands in the line right after an
    [ERROR:] and is a non-empty run of word characters. *)
Lemma search_error_sound (line tok : string) :
  search_error line = Some tok ->
  contains ("ERROR:" ++ tok) line = true /\
  is_empty tok = false /\ all_word tok = true.
Proof.
  induction line as [|c line IH]; [discriminate|].
  rewrite search_error_cons.
  destruct (strip_prefix "ERROR:" (String c line)) as [after|] eqn:E.
  - destruct (span is_word after) as [t r] eqn:S.
    destruct (is_empty t) eqn:Et.
    + intros H. destruct (IH H) as (Hc & Hrest).
      split; [|assumption]. rewrite contains_cons, Hc. apply orb_true_r.
    + intros H; inversion H; subst.
      apply span_inv in S as (-> & Hw & _).
      apply strip_prefix_inv in E. rewrite E.
      split; [|now split].
      rewrite <- append_assoc_s. apply (contains_intro _ "" r).
  - intros H. destruct (IH H) as (Hc & Hrest).
    split; [|assumption]. rewrite contains_cons, Hc. apply orb_true_r.
Qed.

Lemma mem_In (x : string) (l : list string) : mem x l = true <-> In x l.
Proof.
  unfold mem. rewrite existsb_exists. split.
  - intros (y & Hy & E). apply String.eqb_eq in E. now subst.
  - intros H. exists x. split; [assumption|apply String.eqb_refl].
Qed.

(** The two ways to a fail verdict. *)
Lemma fails_exactly_when :
  forall (text : string) (ignore : option (list string)),
    _is_valid (Some text) ignore = false <->
    contains "Exception" text = true \/
    exists line tok,
      In line (splitlines text) /\ search_error line = Some tok /\
      ~ In tok (ignored_tokens ignore).
Proof.
  intros text ignore. unfold _is_valid.
  fold (ignored_tokens ignore).
  destruct (contains "Exception" text) eqn:E.
  - split; [now left|reflexivity].
  - rewrite scan_lines_fails. split.
    + intros (line & tok & Hl & Hs & Hm). right. exists line, tok.
      repeat split; trivial. rewrite <- mem_In. congruence.
    + intros [H|(line & tok & Hl & Hs & Hm)]; [discriminate|].
      exists line, tok. repeat split; trivial.
      destruct (mem tok (ignored_tokens ignore)) eqn:Hmem; trivial.
      apply mem_In in Hmem. contradiction.
Qed.

(** The verdict is fail exactly when the text has the substring
    Exception or the first ERROR: token of some line is not in the
    list looked up (['xxx'] when ignore is None). *)
Theorem is_valid_fails_iff :
  forall (text : string) (ignore : option (list string)),
    _is_valid (Some text) ignore = false <->
    contains "Exception" text = true \/
    exists line tok,
      In line (splitlines text) /\ search_error line = Some tok /\
      ~ In tok (ignored_tokens ignore).
Proof. exact fails_exactly_when. Qed.

(** Ignoring more never turns a pass into a fail. *)
Theorem is_valid_monotone :
  forall (result : option string) (ignore ignore' : option (list string)),
    incl (ignored_tokens ignore) (ignored_tokens ignore') ->
    _is_valid result ignore = true ->
    _is_valid result ignore' = true.
Proof.
  intros [text|] ignore ignore' Hincl Hpass; [|reflexivity].
  destruct (_is_valid (Some text) ignore') eqn:E; [reflexivity|].
  apply fails_exactly_when in E.
  assert (F : _is_valid (Some text) ignore = false);
    [|rewrite F in Hpass; discriminate].
  apply fails_exactly_when.
  destruct E as [E|(line & tok & Hl & Hs & Hn)]; [now left|].
  right. exists line, tok. repeat split; trivial.
  intros Hin. apply Hn, Hincl, Hin.
Qed.

Lemma is_valid_monotone_witness :
  incl (ignored_tokens (Some ["MATE_NOT_FOUND"]))
       (ignored_tokens (Some default_ignore)) /\
  _is_valid (Some "ERROR:MATE_NOT_FOUND 12") (Some ["MATE_NOT_FOUND"])
    = true /\
  _is_valid (Some "ERROR:MATE_NOT_FOUND 12") (Some default_ignore) = true.
Proof.
  assert (H : incl (ignored_tokens (Some ["MATE_NOT_FOUND"]))
                   (ignored_tokens (Some default_ignore))).
  { intros x [<-|[]]. now left. }
  split; [exact H|]. split; [reflexivity|].
  exact (is_valid_monotone (Some "ERROR:MATE_NOT_FOUND 12")
           (Some ["MATE_NOT_FOUND"]) (Some default_ignore) H eq_refl).
Defined.

(** A report with neither the substring Exception nor the substring
    ERROR: passes whatever the ignore list, the empty one included. *)
Theorem clean_report_passes :
  forall (text : string) (ignore : option (list string)),
    contains "Exception" text = false ->
    contains "ERROR:" text = false ->
    _is_valid (Some text) ignore = true.
Proof.
  intros text ignore Hexc Herr.
  destruct (_is_valid (Some text) ignore) eqn:E; [reflexivity|].
  apply fails_exactly_when in E.
  destruct E as [E|(line & tok & Hl & Hs & _)]; [congruence|].
  apply search_error_sound in Hs as (Hc & _).
  destruct (contains_inv _ _ Hc) as (p & q & Hline).
  destruct (splitlines_pieces _ _ Hl) as (pre & post & Htext).
  assert (C : contains "ERROR:" line = true).
  { rewrite Hline, append_assoc_s. apply contains_intro. }
  rewrite Htext, (contains_within _ _ _ _ C) in Herr. discriminate.
Qed.

Lemma clean_report_passes_witness :
  contains "Exception" "No errors found" = false /\
  contains "ERROR:" "No errors found" = false /\
  _is_valid (Some "No errors found") (Some []) = true.
Proof.
  split; [reflexivity|]. split; [reflexivity|].
  exact (clean_report_passes "No errors found" (Some []) eq_refl eq_refl).
Defined.

(** A fail verdict without the substring Exception points at a real
    occurrence: the text has ERROR: followed by a non-empty run of word
    characters that is not in the list looked up. *)
Theorem fail_verdict_has_a_token :
  forall (text : string) (ignore : option (list string)),
    contains "Exception" text = false ->
    _is_valid (Some text) ignore = false ->
    exists tok,
      contains ("ERROR:" ++ tok) text = true /\
      is_empty tok = false /\ all_word tok = true /\
      ~ In tok (ignored_tokens ignore).
Proof.
  intros text ignore Hexc Hfail.
  apply fails_exactly_when in Hfail.
  destruct Hfail as [E|(line & tok & Hl & Hs & Hn)]; [congruence|].
  apply search_error_sound in Hs as (Hc & Hne & Hw).
  destruct (splitlines_pieces _ _ Hl) as (pre & post & ->).
  exists tok. repeat split; trivial. now apply contains_within.
Qed.

Lemma fail_verdict_has_a_token_witness :
  contains "Exception" "ERROR:BAD_CIGAR 3" = false /\
  _is_valid (Some "ERROR:BAD_CIGAR 3") (Some default_ignore) = false /\
  exists tok,
    contains ("ERROR:" ++ tok) "ERROR:BAD_CIGAR 3" = true /\
    is_empty tok = false /\ all_word tok = true /\
    ~ In tok (ignored_tokens (Some default_ignore)).
Proof.
  split; [reflexivity|]. split; [reflexivity|].
  exact (fail_verdict_has_a_token "ERROR:BAD_CIGAR 3" (Some default_ignore)
           eq_refl eq_refl).
Defined.

End ClassifierComplete.

(* ================================================================== *)
(** ** More on the operations: guards and pre-validation *)

Section Guards.
Import Py Re Eff SamTools Spec Terms PyFacts EffFacts.

Lemma startswith_app (p s x : string) :
  startswith p x = true -> startswith (p ++ s) x = true.
Proof.
  unfold startswith.
  destruct (strip_prefix x p) as [r|] eqn:E; [|discriminate]. intros _.
  apply strip_prefix_inv in E as ->.
  now rewrite append_assoc_s, strip_prefix_app.
Qed.

(** Joining onto an absolute directory gives an absolute path. *)
Lemma path_join_absolute (p f : string) :
  startswith p "/" = true -> startswith (path_join p f) "/" = true.
Proof.
  intros Hp. unfold path_join.
  destruct (startswith f "/") eqn:Hf; [assumption|].
  destruct (is_empty p || endswith p "/"); now apply startswith_app.
Qed.

(** An absolute name stands for itself. *)
Lemma path_join_of_absolute_name (p f : string) :
  startswith f "/" = true -> path_join p f = f.
Proof. intros Hf. unfold path_join. now rewrite Hf. Qed.

Lemma path_join_twice (p f : string) :
  startswith p "/" = true -> path_join p (path_join p f) = path_join p f.
Proof.
  intros Hp. apply path_join_of_absolute_name. now apply path_join_absolute.
Qed.

(** What path resolution returns when it returns. *)
Lemma prepare_paths_resolved (ifile p iext oext : string)
    (ofile opath : option string) :
  output_dir_ok opath = true ->
  _prepare_paths ifile (Some p) ofile opath iext oext =
  ret (path_join p ifile,
       path_join (match opath with None => p | Some o => o end)
         (match ofile with
          | None => if String.eqb (slice_last 4 ifile) iext
                    then slice_drop_last 4 ifile ++ oext
                    else ifile ++ oext
          | Some f => f
          end),
       match opath with None => p | Some o => o end).
Proof.
  intros Hdir. unfold _prepare_paths.
  destruct opath as [o|]; simpl in Hdir; [rewrite Hdir|]; reflexivity.
Qed.

(** The three operations that resolve paths refuse a missing input
    directory and a relative output directory before anything else:
    they raise with an empty trace whether or not the input exists and
    whether or not an output name is given. *)
Theorem operations_reject_directories :
  (forall (self : SamTools.t) (w : world) (ifile : string)
          (ofile opath : option string) (flag : bool)
          (ignore : option (list string)),
     let e := Exception
       "Excepted an absolute path to input file to sam tools. Cannot be none."
     in
     convert_sam_to_sorted_bam self w ifile None ofile opath flag ignore
       = ([], Raise e) /\
     convert_bam_to_sam self w ifile None ofile opath flag ignore
       = ([], Raise e) /\
     create_bai_from_bam self w ifile None ofile opath flag ignore
       = ([], Raise e)) /\
  (forall (self : SamTools.t) (w : world) (ifile p o : string)
          (ofile : option string) (flag : bool)
          (ignore : option (list string)),
     startswith o "/" = false ->
     let e := Exception
       ("Output path must be an absolute path. Provided: " ++ o) in
     convert_sam_to_sorted_bam self w ifile (Some p) ofile (Some o) flag
       ignore = ([], Raise e) /\
     convert_bam_to_sam self w ifile (Some p) ofile (Some o) flag ignore
       = ([], Raise e) /\
     create_bai_from_bam self w ifile (Some p) ofile (Some o) flag ignore
       = ([], Raise e)).
Proof.
  split.
  - intros. repeat split.
  - intros self w ifile p o ofile flag ignore Hrel e.
    unfold convert_sam_to_sorted_bam, convert_bam_to_sam,
      create_bai_from_bam, _prepare_paths.
    rewrite Hrel. repeat split.
Qed.

Lemma operations_reject_directories_witness :
  startswith "out" "/" = false /\
  create_bai_from_bam Scenario.no_logger Scenario.all_good "reads.bam"
    (Some "/data") (Some "reads.bai") (Some "out") false
    (Some default_ignore)
  = ([], Raise (Exception
                  "Output path must be an absolute path. Provided: out")).
Proof.
  split; [reflexivity|].
  exact (proj2 (proj2 (proj2 operations_reject_directories
           Scenario.no_logger Scenario.all_good "reads.bam" "/data" "out"
           (Some "reads.bai") false (Some default_ignore) eq_refl))).
Defined.

(** validate and get_stats have three guards, met in this order and
    before any collaborator is called: an input directory that is None
    (AttributeError), one that is not absolute (Exception), an input
    file that does not exist (RuntimeError). *)
Theorem validate_and_get_stats_guards :
  forall (self : SamTools.t) (w : world) (ifile : string)
         (ignore : option (list string)),
    (validate self w ifile None ignore
       = ([], Raise (AttributeError "startswith")) /\
     get_stats self w ifile None
       = ([], Raise (AttributeError "startswith"))) /\
    (forall p, startswith p "/" = false ->
       let e := Exception
         ("Input path must be an absolute path. Provided: " ++ p) in
       validate self w ifile (Some p) ignore = ([], Raise e) /\
       get_stats self w ifile (Some p) = ([], Raise e)) /\
    (forall p, startswith p "/" = true ->
       path_exists w (path_join p ifile) = false ->
       validate self w ifile (Some p) ignore
         = ([], Raise (RuntimeError ("Input file does not exist: "
                                     ++ path_join p ifile))) /\
       get_stats self w ifile (Some p)
         = ([], Raise (RuntimeError ("Input bam file does not exist: "
                                     ++ path_join p ifile)))).
Proof.
  intros self w ifile ignore. split; [split; reflexivity|]. split.
  - intros p Hrel e. unfold validate, get_stats, absolute_input_path.
    rewrite Hrel. split; reflexivity.
  - intros p Habs Hmiss. unfold validate, get_stats, absolute_input_path.
    rewrite Habs. cbv beta iota zeta delta [negb].
    rewrite !bind_ret, Hmiss. split; reflexivity.
Qed.

Lemma validate_and_get_stats_guards_witness :
  startswith "data" "/" = false /\
  path_exists Scenario.no_files (path_join "/data" "reads.bam") = false /\
  validate Scenario.no_logger Scenario.no_files "reads.bam" (Some "data")
    (Some default_ignore)
  = ([], Raise (Exception
                  "Input path must be an absolute path. Provided: data")) /\
  get_stats Scenario.no_logger Scenario.no_files "reads.bam" (Some "/data")
  = ([], Raise (RuntimeError
                  "Input bam file does not exist: /data/reads.bam")).
Proof.
  split; [reflexivity|]. split; [reflexivity|]. split.
  - exact (proj1 (proj1 (proj2 (validate_and_get_stats_guards
             Scenario.no_logger Scenario.no_files "reads.bam"
             (Some default_ignore))) "data" eq_refl)).
  - exact (proj2 (proj2 (proj2 (validate_and_get_stats_guards
             Scenario.no_logger Scenario.no_files "reads.bam"
             (Some default_ignore))) "/data" eq_refl eq_refl)).
Defined.

(** Path resolution accepts a relative input directory, the validation
    that an operation runs first does not: with validate set, an
    existing input and a relative input directory the three operations
    raise the Exception of validate, having called no collaborator. *)
Theorem prevalidation_needs_absolute_directory :
  forall (self : SamTools.t) (w : world) (ifile p : string)
         (ofile opath : option string) (ignore : option (list string)),
    startswith p "/" = false ->
    output_dir_ok opath = true ->
    path_exists w (path_join p ifile) = true ->
    let e := Exception
      ("Input path must be an absolute path. Provided: " ++ p) in
    convert_sam_to_sorted_bam self w ifile (Some p) ofile opath true ignore
      = ([], Raise e) /\
    convert_bam_to_sam self w ifile (Some p) ofile opath true ignore
      = ([], Raise e) /\
    create_bai_from_bam self w ifile (Some p) ofile opath true ignore
      = ([], Raise e).
Proof.
  intros self w ifile p ofile opath ignore Hrel Hdir Hex e.
  unfold convert_sam_to_sorted_bam, convert_bam_to_sam, create_bai_from_bam.
  rewrite !prepare_paths_resolved by assumption.
  rewrite !bind_ret, Hex. cbv beta iota zeta delta [negb].
  unfold validation_fails, validate, absolute_input_path.
  rewrite Hrel. repeat split.
Qed.

Lemma prevalidation_needs_absolute_directory_witness :
  startswith "data" "/" = false /\
  output_dir_ok None = true /\
  path_exists Scenario.all_good (path_join "data" "reads.sam") = true /\
  convert_sam_to_sorted_bam Scenario.no_logger Scenario.all_good
    "reads.sam" (Some "data") None None true (Some default_ignore)
  = ([], Raise (Exception
                  "Input path must be an absolute path. Provided: data")) /\
  result (convert_sam_to_sorted_bam Scenario.no_logger Scenario.all_good
            "reads.sam" (Some "data") None None false
            (Some default_ignore)) = Return 0%Z.
Proof.
  split; [reflexivity|]. split; [reflexivity|]. split; [reflexivity|].
  split; [|reflexivity].
  exact (proj1 (prevalidation_needs_absolute_directory Scenario.no_logger
           Scenario.all_good "reads.sam" "data" None None
           (Some default_ignore) eq_refl eq_refl eq_refl)).
Defined.

End Guards.

(* ================================================================== *)
(** ** validate, alone and ahead of an operation *)

Section Prevalidation.
Import Py Re Eff SamTools Spec Terms PyFacts EffFacts.

Ltac run_eff :=
  cbv beta iota zeta
      delta [bind try_except result trace ret raise lift emit log Popen
             communicate wait decode fst snd app].

(** validate past its guards. *)
Lemma validate_body (self : SamTools.t) (w : world) (ifile p : string)
    (ignore : option (list string)) :
  startswith p "/" = true ->
  path_exists w (path_join p ifile) = true ->
  validate self w ifile (Some p) ignore =
  let ifile := path_join p ifile in
  try_except
    (bind (Popen w (picard_command ifile) None None) (fun validation =>
     bind (communicate validation) (fun result =>
     bind (decode result) (fun text =>
     if _is_valid (Some text) ignore
     then bind (log (ifile ++ " passed validation") (Some INFO)
                    (logger self)) (fun _ => ret 0%Z)
     else bind (log (ifile ++ " failed validation with errors: "
                     ++ bytes_repr result) (Some ERROR) (logger self))
               (fun _ => ret 1%Z)))))
    (fun ex =>
       bind (log (ifile ++ " failed validation. " ++ str ex)
                 (Some ERROR) (logger self)) (fun _ => ret 1%Z)).
Proof.
  intros Habs Hex. unfold validate, absolute_input_path.
  rewrite Habs. cbv beta iota zeta delta [negb].
  rewrite bind_ret, Hex. reflexivity.
Qed.

(** The status of validate past its guards. *)
Lemma validate_result :
  forall (self : SamTools.t) (w : world) (ifile p : string)
         (ignore : option (list string)),
    startswith p "/" = true ->
    path_exists w (path_join p ifile) = true ->
    result (validate self w ifile (Some p) ignore) =
    Return (match decoded_output w (picard_command (path_join p ifile)) with
            | Return text => if _is_valid (Some text) ignore
                             then 0%Z else 1%Z
            | Raise _ => 1%Z
            end).
Proof.
  intros self w ifile p ignore Habs Hex.
  rewrite validate_body by assumption. cbv zeta.
  unfold decoded_output. run_eff.
  destruct (spawn w _ None) as [proc|e]; [|reflexivity]. run_eff.
  destruct (communicate_result proc) as [out|e]; [|reflexivity]. run_eff.
  destruct (decoded out) as [text|e]; [|reflexivity]. run_eff.
  destruct (_is_valid (Some text) ignore); reflexivity.
Qed.

(** Past its guards validate never raises: it returns 0 when the
    validator ran, its output decoded and the text is classified valid,
    and 1 in every other case. *)
Theorem validate_status :
  forall (self : SamTools.t) (w : world) (ifile p : string)
         (ignore : option (list string)),
    startswith p "/" = true ->
    path_exists w (path_join p ifile) = true ->
    result (validate self w ifile (Some p) ignore) =
    Return (match decoded_output w (picard_command (path_join p ifile)) with
            | Return text => if _is_valid (Some text) ignore
                             then 0%Z else 1%Z
            | Raise _ => 1%Z
            end).
Proof. exact validate_result. Qed.

Lemma validate_status_witness :
  startswith "/data" "/" = true /\
  path_exists Scenario.all_good (path_join "/data" "reads.bam") = true /\
  result (validate Scenario.no_logger Scenario.all_good "reads.bam"
            (Some "/data") (Some default_ignore)) = Return 0%Z.
Proof.
  split; [reflexivity|]. split; [reflexivity|].
  exact (validate_status Scenario.no_logger Scenario.all_good "reads.bam"
           "/data" (Some default_ignore) eq_refl eq_refl).
Defined.

(** Past its guards validate reports through [log] exactly once, as its
    last call, with the logger of the constructor: at level INFO when it
    returns 0 and at level ERROR when it returns 1; the calls before
    are those that launch and read the validator. *)
Theorem validate_logs_once :
  forall (self : SamTools.t) (w : world) (ifile p : string)
         (ignore : option (list string)),
    startswith p "/" = true ->
    path_exists w (path_join p ifile) = true ->
    exists calls msg status,
      validate self w ifile (Some p) ignore =
        ((calls ++ [EvLog msg
                       (Some (if (status =? 0)%Z then INFO else ERROR))
                       (logger self)])%list,
         Return status) /\
      forallb is_process_event calls = true.
Proof.
  intros self w ifile p ignore Habs Hex.
  rewrite validate_body by assumption. cbv zeta.
  run_eff.
  destruct (spawn w _ None) as [proc|e].
  2:{ eexists [_], _, 1%Z. split; reflexivity. }
  run_eff.
  destruct (communicate_result proc) as [out|e].
  2:{ eexists [_; _], _, 1%Z. split; reflexivity. }
  run_eff.
  destruct (decoded out) as [text|e].
  2:{ eexists [_; _], _, 1%Z. split; reflexivity. }
  run_eff.
  destruct (_is_valid (Some text) ignore).
  - eexists [_; _], _, 0%Z. split; reflexivity.
  - eexists [_; _], _, 1%Z. split; reflexivity.
Qed.

Lemma validate_logs_once_witness :
  startswith "/data" "/" = true /\
  path_exists Scenario.no_launch (path_join "/data" "reads.bam") = true /\
  exists calls msg status,
    validate Scenario.with_logger Scenario.no_launch "reads.bam"
      (Some "/data") None =
      ((calls ++ [EvLog msg
                     (Some (if (status =? 0)%Z then INFO else ERROR))
                     (logger Scenario.with_logger)])%list,
       Return status) /\
    forallb is_process_event calls = true.
Proof.
  split; [reflexivity|]. split; [reflexivity|].
  exact (validate_logs_once Scenario.with_logger Scenario.no_launch
           "reads.bam" "/data" None eq_refl eq_refl).
Defined.

(** Joining an absolute directory twice changes nothing for validate. *)
Lemma validate_joined_path :
  forall (self : SamTools.t) (w : world) (ifile p : string)
         (ignore : option (list string)),
    startswith p "/" = true ->
    validate self w (path_join p ifile) (Some p) ignore
    = validate self w ifile (Some p) ignore.
Proof.
  intros self w ifile p ignore Habs. unfold validate, absolute_input_path.
  rewrite Habs. cbv beta iota zeta delta [negb]. rewrite !bind_ret.
  now rewrite path_join_twice.
Qed.

(** An operation hands validate the path it has already joined; with an
    absolute input directory validate joins it again to the same path,
    so the file validated is the file converted. *)
Theorem prevalidation_reads_the_input :
  forall (self : SamTools.t) (w : world) (ifile p : string)
         (ignore : option (list string)),
    startswith p "/" = true ->
    validate self w (path_join p ifile) (Some p) ignore
    = validate self w ifile (Some p) ignore.
Proof. exact validate_joined_path. Qed.

Lemma prevalidation_reads_the_input_witness :
  startswith "/data" "/" = true /\
  validate Scenario.no_logger Scenario.all_good
    (path_join "/data" "reads.bam") (Some "/data") None
  = validate Scenario.no_logger Scenario.all_good "reads.bam"
      (Some "/data") None.
Proof.
  split; [reflexivity|].
  exact (prevalidation_reads_the_input Scenario.no_logger Scenario.all_good
           "reads.bam" "/data" None eq_refl).
Defined.

Lemma bind_then_returned {A B C} (t : list event) (a : A) (f : A -> B)
    (k : B -> M C) :
  bind (bind (t, Return a) (fun r => ret (f r))) k =
  ((t ++ trace (k (f a)))%list, result (k (f a))).
Proof.
  unfold bind, ret, trace, result. rewrite app_nil_r.
  now destruct (k (f a)).
Qed.

Ltac enter_operation Hdir Hex :=
  unfold convert_sam_to_sorted_bam, convert_bam_to_sam, create_bai_from_bam;
  rewrite !prepare_paths_resolved by exact Hdir;
  rewrite !bind_ret, !Hex; cbv beta iota zeta delta [negb].

(** When the validation asked for fails, the operation is that
    validation and nothing more: it returns 1 and has neither looked
    for samtools nor launched it. *)
Theorem failed_prevalidation_stops :
  forall (self : SamTools.t) (w : world) (ifile p : string)
         (ofile opath : option string) (ignore : option (list string)),
    startswith p "/" = true ->
    output_dir_ok opath = true ->
    path_exists w (path_join p ifile) = true ->
    result (validate self w ifile (Some p) ignore) = Return 1%Z ->
    convert_sam_to_sorted_bam self w ifile (Some p) ofile opath true ignore
      = validate self w ifile (Some p) ignore /\
    convert_bam_to_sam self w ifile (Some p) ofile opath true ignore
      = validate self w ifile (Some p) ignore /\
    create_bai_from_bam self w ifile (Some p) ofile opath true ignore
      = validate self w ifile (Some p) ignore.
Proof.
  intros self w ifile p ofile opath ignore Habs Hdir Hex Hfail.
  enter_operation Hdir Hex.
  unfold validation_fails.
  rewrite validate_joined_path by assumption.
  destruct (validate self w ifile (Some p) ignore) as [tv [r|e]];
    simpl in Hfail; inversion Hfail; subst.
  simpl. rewrite !app_nil_r. repeat split.
Qed.

Lemma failed_prevalidation_stops_witness :
  startswith "/data" "/" = true /\
  output_dir_ok None = true /\
  path_exists Scenario.no_launch (path_join "/data" "reads.bam") = true /\
  result (validate Scenario.no_logger Scenario.no_launch "reads.bam"
            (Some "/data") None) = Return 1%Z /\
  create_bai_from_bam Scenario.no_logger Scenario.no_launch "reads.bam"
    (Some "/data") None None true None
  = validate Scenario.no_logger Scenario.no_launch "reads.bam"
      (Some "/data") None.
Proof.
  repeat (split; [reflexivity|]).
  exact (proj2 (proj2 (failed_prevalidation_stops Scenario.no_logger
           Scenario.no_launch "reads.bam" "/data" None None None
           eq_refl eq_refl eq_refl eq_refl))).
Defined.

(** When the validation asked for passes, the operation is that
    validation followed by the operation without validation. *)
Theorem passed_prevalidation_continues :
  forall (self : SamTools.t) (w : world) (ifile p : string)
         (ofile opath : option string) (ignore : option (list string)),
    startswith p "/" = true ->
    output_dir_ok opath = true ->
    path_exists w (path_join p ifile) = true ->
    result (validate self w ifile (Some p) ignore) = Return 0%Z ->
    let checked := trace (validate self w ifile (Some p) ignore) in
    let after (op : bool -> M Z) :=
      op true = ((checked ++ trace (op false))%list, result (op false)) in
    after (fun flag => convert_sam_to_sorted_bam self w ifile (Some p)
                         ofile opath flag ignore) /\
    after (fun flag => convert_bam_to_sam self w ifile (Some p)
                         ofile opath flag ignore) /\
    after (fun flag => create_bai_from_bam self w ifile (Some p)
                         ofile opath flag ignore).
Proof.
  intros self w ifile p ofile opath ignore Habs Hdir Hex Hpass checked after.
  subst after checked. cbv beta.
  enter_operation Hdir Hex.
  unfold validation_fails.
  rewrite validate_joined_path by assumption.
  destruct (validate self w ifile (Some p) ignore) as [tv [r|e]];
    simpl in Hpass; inversion Hpass; subst.
  rewrite !(bind_then_returned tv 0%Z (fun r => (r =? 1)%Z)).
  rewrite !bind_ret. repeat split.
Qed.

Lemma passed_prevalidation_continues_witness :
  startswith "/data" "/" = true /\
  output_dir_ok None = true /\
  path_exists Scenario.all_good (path_join "/data" "reads.bam") = true /\
  result (validate Scenario.no_logger Scenario.all_good "reads.bam"
            (Some "/data") None) = Return 0%Z /\
  create_bai_from_bam Scenario.no_logger Scenario.all_good "reads.bam"
    (Some "/data") None None true None
  = ((trace (validate Scenario.no_logger Scenario.all_good "reads.bam"
               (Some "/data") None)
      ++ trace (create_bai_from_bam Scenario.no_logger Scenario.all_good
                  "reads.bam" (Some "/data") None None false None))%list,
     result (create_bai_from_bam Scenario.no_logger Scenario.all_good
               "reads.bam" (Some "/data") None None false None)).
Proof.
  repeat (split; [reflexivity|]).
  exact (proj2 (proj2 (passed_prevalidation_continues Scenario.no_logger
           Scenario.all_good "reads.bam" "/data" None None None
           eq_refl eq_refl eq_refl eq_refl))).
Defined.

End Prevalidation.

(* ================================================================== *)
(** ** More on the operations: samtools and its processes *)

Section Stages.
Import Py Re Eff SamTools Spec Terms PyFacts EffFacts.

Ltac run_calls :=
  cbv beta iota zeta
      delta [bind try_except result trace ret raise lift emit log Popen
             communicate wait decode fst snd app validation_fails
             failed_to_convert sort_command view_command index_command
             flagstat_command].

Lemma check_prog_missing (w : world) :
  samtools_missing w = true ->
  _check_prog w = ([EvWhereis "samtools"], Raise (tool_not_found w)).
Proof.
  unfold samtools_missing, _check_prog, tool_not_found.
  destruct (whereis w "samtools") as [prog|]; [|reflexivity].
  now intros ->.
Qed.

Lemma check_prog_found (w : world) :
  samtools_missing w = false ->
  _check_prog w = ([EvWhereis "samtools"], Return tt).
Proof.
  unfold samtools_missing, _check_prog.
  destruct (whereis w "samtools") as [prog|]; [|discriminate].
  now intros ->.
Qed.

Ltac enter_unvalidated Hdir Hex :=
  unfold convert_sam_to_sorted_bam, convert_bam_to_sam, create_bai_from_bam;
  rewrite ?prepare_paths_resolved by exact Hdir;
  rewrite ?bind_ret, ?Hex; cbv beta iota zeta delta [negb validation_fails];
  rewrite ?bind_ret.

(** Without samtools each operation that needs it raises the
    RuntimeError of _check_prog, which carries the value of PATH, after
    the lookup and before any process is launched. *)
Theorem missing_samtools_stops :
  forall (self : SamTools.t) (w : world) (ifile p : string)
         (ofile opath : option string) (ignore : option (list string)),
    samtools_missing w = true ->
    output_dir_ok opath = true ->
    path_exists w (path_join p ifile) = true ->
    let stopped : M Z := ([EvWhereis "samtools"], Raise (tool_not_found w)) in
    convert_sam_to_sorted_bam self w ifile (Some p) ofile opath false ignore
      = stopped /\
    convert_bam_to_sam self w ifile (Some p) ofile opath false ignore
      = stopped /\
    create_bai_from_bam self w ifile (Some p) ofile opath false ignore
      = stopped /\
    (startswith p "/" = true ->
     get_stats self w ifile (Some p)
       = ([EvWhereis "samtools"], Raise (tool_not_found w))).
Proof.
  intros self w ifile p ofile opath ignore Hmiss Hdir Hex stopped.
  subst stopped. repeat split.
  1-3: enter_unvalidated Hdir Hex;
       now rewrite (check_prog_missing w Hmiss).
  intros Habs. unfold get_stats, absolute_input_path. rewrite Habs.
  cbv beta iota zeta delta [negb]. rewrite bind_ret, Hex.
  cbv beta iota zeta delta [negb].
  now rewrite (check_prog_missing w Hmiss).
Qed.

Lemma missing_samtools_stops_witness :
  samtools_missing no_samtools = true /\
  output_dir_ok None = true /\
  path_exists no_samtools (path_join "/data" "reads.sam") = true /\
  convert_sam_to_sorted_bam Scenario.no_logger no_samtools "reads.sam"
    (Some "/data") None None false None
  = ([EvWhereis "samtools"],
     Raise (RuntimeError
       ("samtools command not found in your PATH environmental variable. "
        ++ "/usr/bin"))).
Proof.
  repeat (split; [reflexivity|]).
  exact (proj1 (missing_samtools_stops Scenario.no_logger no_samtools
           "reads.sam" "/data" None None None eq_refl eq_refl eq_refl)).
Defined.

(** The two stages of convert_sam_to_sorted_bam are launched in the
    order sort, view.  When sort cannot be launched, view is never
    launched; when view cannot be launched, the sort process already
    running is neither communicated with nor waited for.  Either way
    the failure is logged and the operation returns 0. *)
Theorem sorted_bam_launch_failures :
  forall (self : SamTools.t) (w : world) (ifile : string)
         (ipath ofile opath : option string) (ignore : option (list string))
         (i o d : string),
    _prepare_paths ifile ipath ofile opath ".sam" ".bam" = ret (i, o, d) ->
    path_exists w i = true ->
    samtools_missing w = false ->
    (forall e,
       spawn w (sort_command o) (Some d) = Raise e ->
       convert_sam_to_sorted_bam self w ifile ipath ofile opath false ignore
       = ([EvWhereis "samtools"; sorting i d;
           EvPopen (sort_command o) (Some d) None;
           failed_to_convert i o e], Return 0%Z)) /\
    (forall ps e,
       spawn w (sort_command o) (Some d) = Return ps ->
       spawn w (view_command i) (Some d) = Raise e ->
       convert_sam_to_sorted_bam self w ifile ipath ofile opath false ignore
       = ([EvWhereis "samtools"; sorting i d;
           EvPopen (sort_command o) (Some d) None;
           EvPopen (view_command i) (Some d) (Some (command ps));
           failed_to_convert i o e], Return 0%Z)).
Proof.
  intros self w ifile ipath ofile opath ignore i o d Hprep Hex Hfound.
  unfold convert_sam_to_sorted_bam.
  rewrite Hprep, bind_ret. cbv beta iota zeta. rewrite Hex.
  cbv beta iota zeta delta [negb validation_fails]. rewrite bind_ret.
  rewrite (check_prog_found w Hfound).
  unfold sorting, sort_command, view_command in *. split.
  - intros e Hs. run_calls. rewrite Hs. reflexivity.
  - intros ps e Hs Hv. run_calls. rewrite Hs. run_calls. rewrite Hv.
    reflexivity.
Qed.

Lemma sorted_bam_launch_failures_witness :
  _prepare_paths "reads.sam" (Some "/data") None None ".sam" ".bam"
    = ret ("/data/reads.sam", "/data/reads.bam", "/data") /\
  path_exists view_fails "/data/reads.sam" = true /\
  samtools_missing view_fails = false /\
  spawn view_fails (sort_command "/data/reads.bam") (Some "/data")
    = Return (Scenario.quiet (sort_command "/data/reads.bam")) /\
  spawn view_fails (view_command "/data/reads.sam") (Some "/data")
    = Raise (Raised "OSError" "cannot fork") /\
  convert_sam_to_sorted_bam Scenario.no_logger view_fails "reads.sam"
    (Some "/data") None None false None
  = ([EvWhereis "samtools"; sorting "/data/reads.sam" "/data";
      EvPopen (sort_command "/data/reads.bam") (Some "/data") None;
      EvPopen (view_command "/data/reads.sam") (Some "/data")
        (Some (sort_command "/data/reads.bam"));
      failed_to_convert "/data/reads.sam" "/data/reads.bam"
        (Raised "OSError" "cannot fork")], Return 0%Z).
Proof.
  repeat (split; [reflexivity|]).
  exact (proj2 (sorted_bam_launch_failures Scenario.no_logger view_fails
           "reads.sam" (Some "/data") None None None
           "/data/reads.sam" "/data/reads.bam" "/data"
           eq_refl eq_refl eq_refl)
         (Scenario.quiet (sort_command "/data/reads.bam"))
         (Raised "OSError" "cannot fork") eq_refl eq_refl).
Defined.

(** When both stages are launched, view writes into sort, the
    operation first reads sort to its end and then waits for view; it
    waits for view only if reading sort did not raise, and returns 0 in
    every case. *)
Theorem sorted_bam_waits_for_both :
  forall (self : SamTools.t) (w : world) (ifile : string)
         (ipath ofile opath : option string) (ignore : option (list string))
         (i o d : string) (ps pv : process),
    _prepare_paths ifile ipath ofile opath ".sam" ".bam" = ret (i, o, d) ->
    path_exists w i = true ->
    samtools_missing w = false ->
    spawn w (sort_command o) (Some d) = Return ps ->
    spawn w (view_command i) (Some d) = Return pv ->
    convert_sam_to_sorted_bam self w ifile ipath ofile opath false ignore
    = (([EvWhereis "samtools"; sorting i d;
         EvPopen (sort_command o) (Some d) None;
         EvPopen (view_command i) (Some d) (Some (command ps));
         EvCommunicate (command ps)]
        ++ match communicate_result ps with
           | Raise e => [failed_to_convert i o e]
           | Return _ =>
               EvWait (command pv)
               :: match wait_result pv with
                  | Raise e => [failed_to_convert i o e]
                  | Return _ => []
                  end
           end)%list, Return 0%Z).
Proof.
  intros self w ifile ipath ofile opath ignore i o d ps pv
         Hprep Hex Hfound Hs Hv.
  unfold convert_sam_to_sorted_bam.
  rewrite Hprep, bind_ret. cbv beta iota zeta. rewrite Hex.
  cbv beta iota zeta delta [negb validation_fails]. rewrite bind_ret.
  rewrite (check_prog_found w Hfound).
  unfold sorting, sort_command, view_command in *. run_calls. rewrite Hs. run_calls. rewrite Hv. run_calls.
  destruct (communicate_result ps) as [out|e]; [|reflexivity]. run_calls.
  destruct (wait_result pv) as [[]|e]; reflexivity.
Qed.

Lemma sorted_bam_waits_for_both_witness :
  _prepare_paths "reads.sam" (Some "/data") None None ".sam" ".bam"
    = ret ("/data/reads.sam", "/data/reads.bam", "/data") /\
  path_exists Scenario.all_good "/data/reads.sam" = true /\
  samtools_missing Scenario.all_good = false /\
  convert_sam_to_sorted_bam Scenario.no_logger Scenario.all_good "reads.sam"
    (Some "/data") None None false None
  = ([EvWhereis "samtools"; sorting "/data/reads.sam" "/data";
      EvPopen (sort_command "/data/reads.bam") (Some "/data") None;
      EvPopen (view_command "/data/reads.sam") (Some "/data")
        (Some (sort_command "/data/reads.bam"));
      EvCommunicate (sort_command "/data/reads.bam");
      EvWait (view_command "/data/reads.sam")], Return 0%Z).
Proof.
  repeat (split; [reflexivity|]).
  exact (sorted_bam_waits_for_both Scenario.no_logger Scenario.all_good
           "reads.sam" (Some "/data") None None None
           "/data/reads.sam" "/data/reads.bam" "/data"
           (Scenario.quiet (sort_command "/data/reads.bam"))
           (Scenario.quiet (view_command "/data/reads.sam"))
           eq_refl eq_refl eq_refl eq_refl eq_refl).
Defined.

(** With no output name, convert_sam_to_sorted_bam writes the sorted
    bam of [stem.sam] to [stem.bam] and create_bai_from_bam indexes
    [stem.bam] into [stem.bai], both in the output directory, which is
    the input directory unless one is given and which is also the
    working directory of the processes. *)
Theorem default_names_of_sort_and_index :
  forall (self : SamTools.t) (w : world) (stem p : string)
         (opath : option string) (ignore : option (list string)),
    output_dir_ok opath = true ->
    samtools_missing w = false ->
    let d := match opath with None => p | Some o => o end in
    (path_exists w (path_join p (stem ++ ".sam")) = true ->
     In (EvPopen (sort_command (path_join d (stem ++ ".bam"))) (Some d) None)
        (trace (convert_sam_to_sorted_bam self w (stem ++ ".sam") (Some p)
                  None opath false ignore))) /\
    (path_exists w (path_join p (stem ++ ".bam")) = true ->
     In (EvPopen (index_command (path_join p (stem ++ ".bam"))
                    (path_join d (stem ++ ".bai"))) (Some d) None)
        (trace (create_bai_from_bam self w (stem ++ ".bam") (Some p)
                  None opath false ignore))).
Proof.
  intros self w stem p opath ignore Hdir Hfound d. subst d.
  assert (Hsam : slice_last 4 (stem ++ ".sam") = ".sam")
    by apply (slice_last_app stem ".sam").
  assert (Hbam : slice_last 4 (stem ++ ".bam") = ".bam")
    by apply (slice_last_app stem ".bam").
  assert (Dsam : slice_drop_last 4 (stem ++ ".sam") = stem)
    by apply (slice_drop_last_app stem ".sam").
  assert (Dbam : slice_drop_last 4 (stem ++ ".bam") = stem)
    by apply (slice_drop_last_app stem ".bam").
  split; intros Hex.
  - enter_unvalidated Hdir Hex.
    rewrite (check_prog_found w Hfound), Hsam, Dsam.
    unfold sort_command. run_calls. cbv beta iota zeta delta [String.eqb Ascii.eqb Bool.eqb].
    destruct (spawn w _ _) as [ps|e]; run_calls; [|simpl; tauto].
    destruct (spawn w _ _) as [pv|e]; run_calls; [|simpl; tauto].
    destruct (communicate_result ps) as [out|e]; run_calls; [|simpl; tauto].
    destruct (wait_result pv) as [[]|e]; simpl; tauto.
  - enter_unvalidated Hdir Hex.
    rewrite (check_prog_found w Hfound), Hbam, Dbam.
    unfold index_command. run_calls. cbv beta iota zeta delta [String.eqb Ascii.eqb Bool.eqb].
    destruct (spawn w _ _) as [ps|e]; run_calls; [|simpl; tauto].
    destruct (communicate_result ps) as [out|e]; simpl; tauto.
Qed.

Lemma default_names_of_sort_and_index_witness :
  output_dir_ok (Some "/out") = true /\
  samtools_missing Scenario.all_good = false /\
  path_exists Scenario.all_good (path_join "/data" ("reads" ++ ".bam"))
    = true /\
  In (EvPopen (index_command "/data/reads.bam" "/out/reads.bai")
        (Some "/out") None)
     (trace (create_bai_from_bam Scenario.no_logger Scenario.all_good
               ("reads" ++ ".bam") (Some "/data") None (Some "/out") false
               None)).
Proof.
  repeat (split; [reflexivity|]).
  exact (proj2 (default_names_of_sort_and_index Scenario.no_logger
           Scenario.all_good "reads" "/data" (Some "/out") None
           eq_refl eq_refl) eq_refl).
Defined.

(** An output name that is given is used as it is, whatever the
    extensions; when it is an absolute path the output directory does
    not enter the output path and only serves as working directory. *)
Theorem explicit_output_name :
  forall (self : SamTools.t) (w : world) (ifile p f : string)
         (opath : option string) (ignore : option (list string)),
    output_dir_ok opath = true ->
    samtools_missing w = false ->
    path_exists w (path_join p ifile) = true ->
    let d := match opath with None => p | Some o => o end in
    In (EvPopen (index_command (path_join p ifile) (path_join d f))
          (Some d) None)
       (trace (create_bai_from_bam self w ifile (Some p) (Some f) opath
                 false ignore)) /\
    (startswith f "/" = true -> path_join d f = f).
Proof.
  intros self w ifile p f opath ignore Hdir Hfound Hex d. subst d.
  split; [|intros Hf; unfold path_join; now rewrite Hf].
  enter_unvalidated Hdir Hex.
  rewrite (check_prog_found w Hfound).
  unfold index_command. run_calls.
  destruct (spawn w _ _) as [ps|e]; run_calls; [|simpl; tauto].
  destruct (communicate_result ps) as [out|e]; simpl; tauto.
Qed.

Lemma explicit_output_name_witness :
  output_dir_ok (Some "/out") = true /\
  samtools_missing Scenario.all_good = false /\
  path_exists Scenario.all_good (path_join "/data" "reads.bam") = true /\
  startswith "/elsewhere/r.idx" "/" = true /\
  In (EvPopen (index_command "/data/reads.bam" "/elsewhere/r.idx")
        (Some "/out") None)
     (trace (create_bai_from_bam Scenario.no_logger Scenario.all_good
               "reads.bam" (Some "/data") (Some "/elsewhere/r.idx")
               (Some "/out") false None)).
Proof.
  repeat (split; [reflexivity|]).
  exact (proj1 (explicit_output_name Scenario.no_logger Scenario.all_good
           "reads.bam" "/data" "/elsewhere/r.idx" (Some "/out") None
           eq_refl eq_refl eq_refl)).
Defined.

(** Past its guards and the lookup of samtools, get_stats is the parser
    applied to the decoded output of flagstat; it has no try block, so
    an exception of the launch, of the read or of the decoding reaches
    the caller, as do the exceptions of the parser. *)
Theorem get_stats_parses_flagstat :
  forall (self : SamTools.t) (w : world) (ifile p : string),
    startswith p "/" = true ->
    path_exists w (path_join p ifile) = true ->
    samtools_missing w = false ->
    result (get_stats self w ifile (Some p)) =
    match decoded_output w (flagstat_command (path_join p ifile)) with
    | Return text => result (_extractAlignmentStatsInfo self text)
    | Raise e => Raise e
    end.
Proof.
  intros self w ifile p Habs Hex Hfound.
  unfold get_stats, absolute_input_path. rewrite Habs.
  cbv beta iota zeta delta [negb]. rewrite bind_ret, Hex.
  cbv beta iota zeta delta [negb].
  rewrite (check_prog_found w Hfound).
  unfold decoded_output, flagstat_command. run_calls.
  destruct (spawn w _ None) as [proc|e]; [|reflexivity]. run_calls.
  destruct (communicate_result proc) as [out|e]; [|reflexivity]. run_calls.
  destruct (decoded out) as [text|e]; [|reflexivity]. run_calls.
  now destruct (_extractAlignmentStatsInfo self text).
Qed.

Lemma get_stats_parses_flagstat_witness :
  startswith "/data" "/" = true /\
  path_exists prints_report (path_join "/data" "reads.bam") = true /\
  samtools_missing prints_report = false /\
  result (get_stats Scenario.no_logger prints_report "reads.bam"
            (Some "/data")) =
  Return {| alignment_rate :=
              PyFloat (S754_finite false 4691249611844266 (-46));
            multiple_alignments := 0; properly_paired := 6;
            singletons := 1; total_reads := 12; unmapped_reads := 4;
            mapped_reads := 8 |}.
Proof.
  repeat (split; [reflexivity|]).
  exact (get_stats_parses_flagstat Scenario.no_logger prints_report
           "reads.bam" "/data" eq_refl eq_refl eq_refl).
Defined.

Lemma validate_ends_well (self : SamTools.t) (w : world) (ifile p : string)
    (ignore : option (list string)) :
  ends_well (result (validate self w ifile (Some p) ignore)) = true.
Proof.
  destruct (startswith p "/") eqn:Habs.
  - destruct (path_exists w (path_join p ifile)) eqn:Hex.
    + rewrite validate_result by assumption.
      destruct (decoded_output w _) as [text|e]; [|reflexivity].
      now destruct (_is_valid (Some text) ignore).
    + unfold validate, absolute_input_path. rewrite Habs.
      cbv beta iota zeta delta [negb]. now rewrite bind_ret, Hex.
  - unfold validate, absolute_input_path. now rewrite Habs.
Qed.

Lemma check_prog_ends (w : world) :
  result (_check_prog w) = Return tt \/
  result (_check_prog w) = Raise (tool_not_found w).
Proof.
  destruct (samtools_missing w) eqn:E.
  - right. now rewrite check_prog_missing.
  - left. now rewrite check_prog_found.
Qed.

Lemma validation_fails_ends (self : SamTools.t) (w : world) (flag : bool)
    (ifile p : string) (ignore : option (list string)) :
  match result (validation_fails self w flag ifile (Some p) ignore) with
  | Return _ => True
  | Raise e => ends_well (Raise e) = true
  end.
Proof.
  unfold validation_fails. destruct flag; [|exact I].
  rewrite result_bind.
  pose proof (validate_ends_well self w ifile p ignore) as H.
  destruct (result (validate self w ifile (Some p) ignore)) as [r|e];
    [exact I|exact H].
Qed.

(** A conversion, an index creation or a validation ends with the
    status 0 or 1 or with an Exception or RuntimeError of the module:
    no exception of a subprocess or of the decoding of its output ever
    reaches the caller. *)
Theorem operations_end_well :
  forall (self : SamTools.t) (w : world) (ifile : string)
         (ipath ofile opath : option string) (flag : bool)
         (ignore : option (list string)),
    ends_well (result (convert_sam_to_sorted_bam self w ifile ipath ofile
                         opath flag ignore)) = true /\
    ends_well (result (convert_bam_to_sam self w ifile ipath ofile opath
                         flag ignore)) = true /\
    ends_well (result (create_bai_from_bam self w ifile ipath ofile opath
                         flag ignore)) = true /\
    (forall p, ends_well (result (validate self w ifile (Some p) ignore))
               = true).
Proof.
  intros self w ifile ipath ofile opath flag ignore.
  assert (guards : forall iext oext,
            (exists i o d,
               _prepare_paths ifile ipath ofile opath iext oext
               = ret (i, o, d) /\ exists p, ipath = Some p) \/
            (exists e,
               _prepare_paths ifile ipath ofile opath iext oext = raise e /\
               ends_well (Raise e) = true)).
  { intros iext oext. unfold _prepare_paths.
    destruct ipath as [p|]; [|right; eexists; split; reflexivity].
    destruct opath as [o|]; [destruct (startswith o "/")|]; simpl;
      first [ left; do 3 eexists; split; [reflexivity|now exists p]
            | right; eexists; split; reflexivity ]. }
  repeat split; [| | |intros p; apply validate_ends_well].
  - unfold convert_sam_to_sorted_bam.
    destruct (guards ".sam" ".bam")
      as [(i & o & d & -> & p & ->)|(e & -> & He)]; [|exact He].
    rewrite bind_ret. cbv beta iota zeta.
    destruct (path_exists w i); [|reflexivity].
    cbv beta iota zeta delta [negb]. rewrite result_bind.
    pose proof (validation_fails_ends self w flag i p ignore) as Hv.
    destruct (result (validation_fails self w flag i (Some p) ignore))
      as [[|]|e]; [reflexivity| |exact Hv].
    rewrite result_bind.
    destruct (check_prog_ends w) as [-> | ->]; [|reflexivity].
    now rewrite result_bind, try_except_log_returns.
  - unfold convert_bam_to_sam.
    destruct (guards ".sam" ".bam")
      as [(i & o & d & -> & p & ->)|(e & -> & He)]; [|exact He].
    rewrite bind_ret. cbv beta iota zeta.
    destruct (path_exists w i); [|reflexivity].
    cbv beta iota zeta delta [negb]. rewrite result_bind.
    pose proof (validation_fails_ends self w flag i p ignore) as Hv.
    destruct (result (validation_fails self w flag i (Some p) ignore))
      as [[|]|e]; [reflexivity| |exact Hv].
    rewrite result_bind.
    destruct (check_prog_ends w) as [-> | ->]; [|reflexivity].
    now rewrite result_bind, try_except_log_returns.
  - unfold create_bai_from_bam.
    destruct (guards ".bam" ".bai")
      as [(i & o & d & -> & p & ->)|(e & -> & He)]; [|exact He].
    rewrite bind_ret. cbv beta iota zeta.
    destruct (path_exists w i); [|reflexivity].
    cbv beta iota zeta delta [negb]. rewrite result_bind.
    pose proof (validation_fails_ends self w flag i p ignore) as Hv.
    destruct (result (validation_fails self w flag i (Some p) ignore))
      as [[|]|e]; [reflexivity| |exact Hv].
    rewrite result_bind.
    destruct (check_prog_ends w) as [-> | ->]; [|reflexivity].
    rewrite result_bind, result_try_except. run_calls.
    destruct (spawn w _ (Some d)) as [proc|e]; [|reflexivity]. run_calls.
    destruct (communicate_result proc) as [out|e]; reflexivity.
Qed.

(** With validate unset, every process an operation launches is a
    samtools command, run in the output directory. *)
Theorem unvalidated_operations_launch_samtools :
  forall (self : SamTools.t) (w : world) (ifile p : string)
         (ofile opath : option string) (ignore : option (list string))
         (cmd : string) (cwd stdout_to : option string),
    In (EvPopen cmd cwd stdout_to)
       (trace (convert_sam_to_sorted_bam self w ifile (Some p) ofile opath
                 false ignore)
        ++ trace (convert_bam_to_sam self w ifile (Some p) ofile opath
                    false ignore)
        ++ trace (create_bai_from_bam self w ifile (Some p) ofile opath
                    false ignore)) ->
    startswith cmd "samtools " = true /\
    cwd = Some (match opath with None => p | Some o => o end).
Proof.
  intros self w ifile p ofile opath ignore cmd cwd stdout_to.
  destruct (output_dir_ok opath) eqn:Hdir.
  2:{ unfold convert_sam_to_sorted_bam, convert_bam_to_sam,
        create_bai_from_bam, _prepare_paths.
      destruct opath as [o|]; [|discriminate]. simpl in Hdir. rewrite Hdir.
      intros []. }
  destruct (path_exists w (path_join p ifile)) eqn:Hex.
  2:{ enter_unvalidated Hdir Hex. intros []. }
  enter_unvalidated Hdir Hex.
  destruct (samtools_missing w) eqn:Hfound.
  { rewrite (check_prog_missing w Hfound). run_calls.
    intros [H|[H|[H|[]]]]; discriminate. }
  rewrite (check_prog_found w Hfound). run_calls.
  repeat match goal with
         | |- context [spawn w ?c ?d] => destruct (spawn w c d); run_calls
         | |- context [communicate_result ?x] =>
             destruct (communicate_result x); run_calls
         | |- context [wait_result ?x] =>
             destruct (wait_result x) as [[]|]; run_calls
         end;
    cbn [In]; intros H;
    repeat match type of H with
           | _ \/ _ => destruct H as [H|H]
           | False => destruct H
           | _ = _ => first [ discriminate H
                           | inversion H; subst; split; reflexivity ]
           end.
Qed.

Lemma unvalidated_operations_launch_samtools_witness :
  In (EvPopen (index_command "/data/reads.bam" "/data/reads.bai")
        (Some "/data") None)
     (trace (convert_sam_to_sorted_bam Scenario.no_logger Scenario.all_good
               "reads.bam" (Some "/data") None None false None)
      ++ trace (convert_bam_to_sam Scenario.no_logger Scenario.all_good
                  "reads.bam" (Some "/data") None None false None)
      ++ trace (create_bai_from_bam Scenario.no_logger Scenario.all_good
                  "reads.bam" (Some "/data") None None false None)) /\
  startswith (index_command "/data/reads.bam" "/data/reads.bai") "samtools "
    = true.
Proof.
  assert (H : In (EvPopen (index_command "/data/reads.bam" "/data/reads.bai")
                    (Some "/data") None)
     (trace (convert_sam_to_sorted_bam Scenario.no_logger Scenario.all_good
               "reads.bam" (Some "/data") None None false None)
      ++ trace (convert_bam_to_sam Scenario.no_logger Scenario.all_good
                  "reads.bam" (Some "/data") None None false None)
      ++ trace (create_bai_from_bam Scenario.no_logger Scenario.all_good
                  "reads.bam" (Some "/data") None None false None))).
  { vm_compute. tauto. }
  split; [exact H|].
  exact (proj1 (unvalidated_operations_launch_samtools Scenario.no_logger
           Scenario.all_good "reads.bam" "/data" None None None _ _ _ H)).
Defined.

End Stages.

(* ================================================================== *)
(** ** The default output of convert_bam_to_sam *)

Section BamToSam.
Import Py Re Eff SamTools Spec Terms PyFacts EffFacts.

Lemma path_join_keeps_suffix (d x ext : string) :
  endswith (path_join d (x ++ ext)) ext = true.
Proof.
  unfold path_join.
  destruct (startswith (x ++ ext) "/"); [apply endswith_app|].
  destruct (is_empty d || endswith d "/").
  - rewrite <- append_assoc_s. apply endswith_app.
  - rewrite <- !append_assoc_s. apply endswith_app.
Qed.

(** With no output name, convert_bam_to_sam redirects [samtools view -h]
    to a path that ends in '.bam', whatever the input name: the pair of
    extensions it resolves with replaces a trailing '.sam' by '.bam' and
    appends '.bam' to any other name. *)
Theorem bam_to_sam_default_ends_in_bam :
  forall (self : SamTools.t) (w : world) (ifile p : string)
         (opath : option string) (ignore : option (list string)),
    output_dir_ok opath = true ->
    samtools_missing w = false ->
    path_exists w (path_join p ifile) = true ->
    exists o,
      endswith o ".bam" = true /\
      In (EvPopen ("samtools view -h " ++ path_join p ifile ++ " > " ++ o)
            (Some (match opath with None => p | Some d => d end)) None)
         (trace (convert_bam_to_sam self w ifile (Some p) None opath false
                   ignore)).
Proof.
  intros self w ifile p opath ignore Hdir Hfound Hex.
  unfold convert_bam_to_sam.
  rewrite prepare_paths_resolved by exact Hdir.
  rewrite bind_ret, Hex. cbv beta iota zeta delta [negb validation_fails].
  rewrite bind_ret, (check_prog_found w Hfound).
  eexists. split.
  2:{ cbv beta iota zeta
          delta [bind try_except result trace ret raise lift emit log Popen
                 communicate fst snd app].
      destruct (spawn w _ _) as [proc|e]; [|simpl; tauto].
      cbv beta iota zeta delta [app].
      destruct (communicate_result proc) as [out|e]; simpl; tauto. }
  destruct (String.eqb (slice_last 4 ifile) ".sam");
    apply path_join_keeps_suffix.
Qed.

Lemma bam_to_sam_default_ends_in_bam_witness :
  output_dir_ok None = true /\
  samtools_missing Scenario.all_good = false /\
  path_exists Scenario.all_good (path_join "/data" "reads.bam") = true /\
  exists o,
    endswith o ".bam" = true /\
    In (EvPopen ("samtools view -h " ++ path_join "/data" "reads.bam"
                 ++ " > " ++ o) (Some "/data") None)
       (trace (convert_bam_to_sam Scenario.no_logger Scenario.all_good
                 "reads.bam" (Some "/data") None None false None)).
Proof.
  repeat (split; [reflexivity|]).
  exact (bam_to_sam_default_ends_in_bam Scenario.no_logger Scenario.all_good
           "reads.bam" "/data" None None eq_refl eq_refl eq_refl).
Defined.

End BamToSam.
